(** * Verification of [internal/auth/auth.go]

    A shallow embedding of the authentication orchestrator of cc-backend:
    the [User] value, the request-scoped context accessor [GetUser], the
    session decoder [AuthViaSession], the start-up routine [Init] and the
    three request handlers [Login], [Auth] and [Logout].

    Go values are modelled as follows.
    - [*User] is [option User] ([None] is the nil pointer).
    - [error] is [option error] ([None] is the nil error).
    - [interface{}] is [Any] ([ANil] is the nil interface).
    - [[]string] is [list string] (the nil slice is the empty list).
    - [map[...]interface{}] with string keys is [gmap string Any].
    - [time.Duration] is a [Z] of nanoseconds, [float64] is the binary64
      instance of [spec_float].
    - Collaborators that live outside this file (the user table, the
      cookie store, the concrete authenticators, the environment) are the
      fields of a record [Collaborators]; each call threads an abstract
      world [W] and is recorded in a trace of [Event]s.
    - [auth.sessionStore] is a pointer: a method call on the nil store
      panics.  The request [r] is a pointer too: [sessionStore.Get]
      attaches the store's registry to the context of the request it is
      given, and the code after the call sees the request so changed. *)

From Stdlib Require Import ZArith Lia.
From Corelib Require Import SpecFloat.
From stdpp Require Import base option gmap strings list.

Open Scope string_scope.
Open Scope Z_scope.
Open Scope list_scope.

(** ** Data model (auth.go lines 22-47) *)

(** [type AuthSource int]; the named constants are an [iota] block. *)
Definition AuthSource := Z.
Definition AuthViaLocalPassword : AuthSource := 0.
Definition AuthViaLDAP : AuthSource := 1.
Definition AuthViaToken : AuthSource := 2.

(** [type AuthType int]. *)
Definition AuthType := Z.
Definition AuthToken : AuthType := 0.
Definition AuthSession : AuthType := 1.

(** [Expiration] is a [time.Time]; its zero value is [0]. *)
Record User := mkUser {
  Username : string;
  Password : string;
  Name : string;
  Roles : list string;
  AuthType_ : AuthType;
  AuthSource_ : AuthSource;
  Email : string;
  Projects : list string;
  Expiration : Z
}.

(** [func (u *User) HasProject(project string) bool] *)
Fixpoint HasProject_loop (ps : list string) (project : string) : bool :=
  match ps with
  | [] => false
  | p :: rest => if String.eqb p project then true else HasProject_loop rest project
  end.

Definition HasProject (u : User) (project : string) : bool :=
  HasProject_loop (Projects u) project.

(** Go's [error] values met in this file: the sentinel [sql.ErrNoRows]
    and values built by [errors.New]. *)
Inductive error :=
| sql_ErrNoRows
| errors_New (msg : string).

Definition Error (e : error) : string :=
  match e with
  | sql_ErrNoRows => "sql: no rows in result set"
  | errors_New msg => msg
  end.

(** [err != sql.ErrNoRows] *)
Definition is_ErrNoRows (e : error) : bool :=
  match e with
  | sql_ErrNoRows => true
  | errors_New _ => false
  end.

(** Dynamic values ([interface{}]). *)
Inductive Any :=
| ANil
| AString (s : string)
| AStrings (l : list string)
| AUser (p : option User)
| AOther (tag : nat).

(** [s, _ = val.(string)]: the zero value when the dynamic type differs. *)
Definition as_string (v : Any) : string :=
  match v with
  | AString s => s
  | _ => ""
  end.

(** [l, _ = val.([]string)] *)
Definition as_strings (v : Any) : list string :=
  match v with
  | AStrings l => l
  | _ => []
  end.

(** ** Request-scoped context (auth.go lines 58-75) *)

(** Context keys are compared with their dynamic type: the typed key
    [ContextKey("user")] differs from a key of another type holding the
    same text. *)
Inductive CtxKey :=
| KContextKey (s : string)
| KForeign (ty : string) (s : string).

Definition CtxKey_eqb (a b : CtxKey) : bool :=
  match a, b with
  | KContextKey s, KContextKey t => String.eqb s t
  | KForeign ty s, KForeign ty' t => String.eqb ty ty' && String.eqb s t
  | _, _ => false
  end.

Definition ContextUserKey : CtxKey := KContextKey "user".

(** A context is the chain built by [context.WithValue], innermost first. *)
Definition Context := list (CtxKey * Any).

Definition WithValue (ctx : Context) (k : CtxKey) (v : Any) : Context :=
  (k, v) :: ctx.

Fixpoint Value (ctx : Context) (k : CtxKey) : Any :=
  match ctx with
  | [] => ANil
  | (k', v) :: parent => if CtxKey_eqb k' k then v else Value parent k
  end.

(** Results of code that can panic. *)
Inductive Outcome (A : Type) :=
| Done (a : A)
| Panic (msg : string).
Arguments Done {A} a.
Arguments Panic {A} msg.

(** [func GetUser(ctx context.Context) *User]; the unchecked type
    assertion to a [User] pointer panics on a value of another dynamic
    type. *)
Definition GetUser (ctx : Context) : Outcome (option User) :=
  match Value ctx ContextUserKey with
  | ANil => Done None
  | AUser p => Done p
  | _ => Panic "interface conversion: interface {} is not *auth.User"
  end.

(** ** Sessions (gorilla/sessions as used by auth.go) *)

Record Options := mkOptions { MaxAge : Z }.

Record Session := mkSession {
  IsNew : bool;
  Values : gmap string Any;
  Options_ : Options
}.

Definition set_MaxAge (s : Session) (n : Z) : Session :=
  {| IsNew := IsNew s; Values := Values s; Options_ := {| MaxAge := n |} |}.

Definition set_Value (s : Session) (k : string) (v : Any) : Session :=
  {| IsNew := IsNew s; Values := <[k := v]> (Values s); Options_ := Options_ s |}.

(** Lines 101-126 of [AuthViaSession]: the decoding of a fetched, non-new
    session into a [User]. *)
Definition AuthViaSession_decode (session : Session) : option User * option error :=
  match Values session !! "username" with
  | None => (None, Some (errors_New "No key username in session"))
  | Some val =>
    let username := as_string val in
    match Values session !! "projects" with
    | None => (None, Some (errors_New "No key projects in session"))
    | Some val =>
      let projects := as_strings val in
      match Values session !! "projects" with
      | None => (None, Some (errors_New "No key roles in session"))
      | Some val =>
        let roles := as_strings val in
        (Some {| Username := username;
                 Password := "";
                 Name := "";
                 Roles := roles;
                 AuthType_ := AuthSession;
                 AuthSource_ := -1;
                 Email := "";
                 Projects := projects;
                 Expiration := 0 |}, None)
      end
    end
  end.

(** ** [time.Duration.Seconds] and the conversion to [int] *)

Definition prec64 : Z := 53.
Definition emax64 : Z := 1024.

(** [float64(n)] for an integer [n]. *)
Definition float64_of_Z (n : Z) : spec_float :=
  binary_normalize prec64 emax64 n 0 false.

Definition Second : Z := 1000000000.

(** [sec := d / Second; nsec := d % Second;
     return float64(sec) + float64(nsec)/1e9] *)
Definition Seconds (d : Z) : spec_float :=
  let sec := Z.quot d Second in
  let nsec := Z.rem d Second in
  SFadd prec64 emax64 (float64_of_Z sec)
        (SFdiv prec64 emax64 (float64_of_Z nsec) (float64_of_Z 1000000000)).

(** [int(f)]: truncation toward zero of a finite value. *)
Definition int_of_float64 (f : spec_float) : Z :=
  match f with
  | S754_finite sign m e =>
    let magnitude :=
      match e with
      | Z0 => Zpos m
      | Zpos _ => Z.shiftl (Zpos m) e
      | Zneg p => Z.shiftr (Zpos m) (Zpos p)
      end in
    if sign then - magnitude else magnitude
  | _ => 0
  end.

(** ** Requests, events and collaborators *)

Record Request := mkRequest {
  Form : list (string * string);
  Header : list (string * string);
  Ctx : Context
}.

(** [r.FormValue(key)]: the first value of the field, or the empty string. *)
Fixpoint FormValue_loop (form : list (string * string)) (key : string) : string :=
  match form with
  | [] => ""
  | (k, v) :: rest => if String.eqb k key then v else FormValue_loop rest key
  end.

Definition FormValue (r : Request) (key : string) : string :=
  FormValue_loop (Form r) key.

(** [r.WithContext(ctx)] *)
Definition WithContext (r : Request) (ctx : Context) : Request :=
  {| Form := Form r; Header := Header r; Ctx := ctx |}.

(** The closed set of concrete authenticator types named in [Init]. *)
Inductive AuthenticatorKind :=
| JWTAuthenticator
| LdapAuthenticator
| JWTSessionAuthenticator
| JWTCookieSessionAuthenticator
| LocalAuthenticator.

Global Instance AuthenticatorKind_eq_dec : EqDecision AuthenticatorKind.
Proof. solve_decision. Defined.

Inductive Level := LDebug | LInfo | LWarn | LError.

Definition StatusUnauthorized : Z := 401.
Definition StatusInternalServerError : Z := 500.

(** What a handler does to the outside, in program order.  A log entry
    keeps the format string and its arguments unrendered. *)
Inductive Event :=
| EvLog (lvl : Level) (format : string) (args : list Any)
| EvGetUser (username : string) (u : option User) (err : option error)
| EvAddUser (u : User) (err : option error)
| EvInit (k : AuthenticatorKind) (config : Any) (err : option error)
| EvCanLogin (i : nat) (k : AuthenticatorKind) (res : bool)
| EvLogin (i : nat) (k : AuthenticatorKind) (u : option User) (err : option error)
| EvAuthViaJWT (u : option User) (err : option error)
| EvSessionGet (s : Session) (err : option error)
| EvSessionNew (s : Session) (err : option error)
| EvSessionSave (s : Session) (err : option error)
| EvRandRead (n : nat) (err : option error)
| EvHttpError (msg : string) (code : Z)
| EvOnSuccess (r : Request)
| EvOnFailure (r : Request) (err : option error).

(** [sessions.CookieStore], reduced to its key material. *)
Record CookieStore := mkCookieStore { keyPairs : list Byte.byte }.

Definition NewCookieStore (key : list Byte.byte) : CookieStore :=
  {| keyPairs := key |}.

(** The three methods of [type Authenticator interface]; the receiver's
    own fields and the [Authentication] it is handed in [Init] live in
    the world [W]. *)
Record Methods (W : Type) := mkMethods {
  Init_ : Any -> W -> option error * W;
  CanLogin : option User -> Request -> W -> bool * W;
  Login_ : option User -> Request -> W -> (option User * option error) * W
}.
Arguments Init_ {W} _ _ _.
Arguments CanLogin {W} _ _ _ _.
Arguments Login_ {W} _ _ _ _.

(** An interface value: a dynamic type and its method table. *)
Record Authenticator (W : Type) := mkAuthenticator {
  kind : AuthenticatorKind;
  methods : Methods W
}.
Arguments kind {W} _.
Arguments methods {W} _.

(** [type Authentication struct]; [db] is an opaque handle. *)
Record Authentication (W : Type) := mkAuthentication {
  db : nat;
  sessionStore : option CookieStore;
  SessionMaxAge : Z;
  authenticators : list (Authenticator W);
  LdapAuth : option (Authenticator W);
  JwtAuth : option (Authenticator W);
  LocalAuth : option (Authenticator W)
}.
Arguments db {W} _.
Arguments sessionStore {W} _.
Arguments SessionMaxAge {W} _.
Arguments authenticators {W} _.
Arguments LdapAuth {W} _.
Arguments JwtAuth {W} _.
Arguments LocalAuth {W} _.

(** Code of other files and packages that auth.go calls. *)
Record Collaborators (W : Type) := mkCollaborators {
  (** [auth.GetUser(username)] and [auth.AddUser(user)] (user table) *)
  db_GetUser : string -> W -> (option User * option error) * W;
  db_AddUser : User -> W -> option error * W;
  (** [sessionStore.Get], [.New] and [.Save]; [store_Get_request] is the
      request as [Get] leaves it *)
  store_Get : option CookieStore -> Request -> string -> W -> (Session * option error) * W;
  store_Get_request : option CookieStore -> Request -> string -> W -> Request;
  store_New : option CookieStore -> Request -> string -> W -> (Session * option error) * W;
  store_Save : option CookieStore -> Request -> Session -> W -> option error * W;
  (** [auth.JwtAuth.AuthViaJWT(rw, r)] *)
  AuthViaJWT : Request -> W -> (option User * option error) * W;
  (** [os.Getenv], [rand.Read], [base64.StdEncoding.DecodeString] *)
  os_Getenv : string -> W -> string;
  rand_Read : nat -> W -> (list Byte.byte * option error) * W;
  base64_DecodeString : string -> list Byte.byte * option error;
  (** the method set of each concrete authenticator type *)
  implementation : AuthenticatorKind -> Methods W
}.
Arguments db_GetUser {W} _ _ _.
Arguments db_AddUser {W} _ _ _.
Arguments store_Get {W} _ _ _ _ _.
Arguments store_Get_request {W} _ _ _ _ _.
Arguments store_New {W} _ _ _ _ _.
Arguments store_Save {W} _ _ _ _ _.
Arguments AuthViaJWT {W} _ _ _.
Arguments os_Getenv {W} _ _ _.
Arguments rand_Read {W} _ _ _.
Arguments base64_DecodeString {W} _ _.
Arguments implementation {W} _ _.

(** ** The handler monad: a world, a trace, and panics *)

Definition M (W A : Type) : Type := W -> list Event * W * Outcome A.

Global Instance M_ret {W} : MRet (M W) :=
  fun A a w => ([], w, Done a).

Global Instance M_bind {W} : MBind (M W) :=
  fun A B f m w =>
    match m w with
    | (t1, w1, Done a) =>
      match f a w1 with
      | (t2, w2, o) => (t1 ++ t2, w2, o)
      end
    | (t1, w1, Panic msg) => (t1, w1, Panic msg)
    end.

Definition trace {W A} (x : list Event * W * Outcome A) : list Event := x.1.1.
Definition final {W A} (x : list Event * W * Outcome A) : W := x.1.2.
Definition outcome {W A} (x : list Event * W * Outcome A) : Outcome A := x.2.

Definition emit {W} (e : Event) : M W unit :=
  fun w => ([e], w, Done tt).

Definition panic {W A} (msg : string) : M W A :=
  fun w => ([], w, Panic msg).

(** A call to a collaborator, recorded with its result. *)
Definition call {W A} (f : W -> A * W) (ev : A -> Event) : M W A :=
  fun w => match f w with (a, w') => ([ev a], w', Done a) end.

Definition log {W} (lvl : Level) (format : string) (args : list Any) : M W unit :=
  emit (EvLog lvl format args).

(** [http.Error(rw, msg, code)] *)
Definition http_Error {W} (msg : string) (code : Z) : M W unit :=
  emit (EvHttpError msg code).

(** The continuations are always tail calls of a handler, so a handler's
    run ends with the event of the continuation it enters. *)
Definition onsuccess {W} (r : Request) : M W unit := emit (EvOnSuccess r).
Definition onfailure {W} (r : Request) (err : option error) : M W unit :=
  emit (EvOnFailure r err).

(** ** The orchestrator (auth.go lines 88-302) *)

Section Orchestrator.
Context {W : Type} (env : Collaborators W).

(** [func (auth *Authentication) AuthViaSession(rw, r)], returning a
    [User] pointer and an [error]. *)
Definition AuthViaSession (auth : Authentication W) (r : Request)
  : M W (option User * option error) :=
  match sessionStore auth with
  | None => panic "invalid memory address or nil pointer dereference"
  | Some _ =>
    '(session, err) ← call (store_Get env (sessionStore auth) r "session")
                           (fun res => EvSessionGet res.1 res.2);
    match err with
    | Some e =>
      log LError "Error while getting session store" [];;
      mret (None, Some e)
    | None =>
      if IsNew session then mret (None, None)
      else mret (AuthViaSession_decode session)
    end
  end.

(** The request behind the pointer [r] once [sessionStore.Get(r, "session")]
    has run from the current world. *)
Definition request_after_Get (auth : Authentication W) (r : Request)
  : M W Request :=
  fun w => ([], w, Done (store_Get_request env (sessionStore auth) r "session" w)).

(** The zero value [&Authentication{}]. *)
Definition Authentication_zero : Authentication W :=
  {| db := 0%nat; sessionStore := None; SessionMaxAge := 0;
     authenticators := []; LdapAuth := None; JwtAuth := None;
     LocalAuth := None |}.

Definition set_db (auth : Authentication W) (d : nat) : Authentication W :=
  {| db := d; sessionStore := sessionStore auth;
     SessionMaxAge := SessionMaxAge auth;
     authenticators := authenticators auth; LdapAuth := LdapAuth auth;
     JwtAuth := JwtAuth auth; LocalAuth := LocalAuth auth |}.

Definition set_sessionStore (auth : Authentication W) (s : CookieStore)
  : Authentication W :=
  {| db := db auth; sessionStore := Some s;
     SessionMaxAge := SessionMaxAge auth;
     authenticators := authenticators auth; LdapAuth := LdapAuth auth;
     JwtAuth := JwtAuth auth; LocalAuth := LocalAuth auth |}.

Definition set_JwtAuth (auth : Authentication W) (a : Authenticator W)
  : Authentication W :=
  {| db := db auth; sessionStore := sessionStore auth;
     SessionMaxAge := SessionMaxAge auth;
     authenticators := authenticators auth; LdapAuth := LdapAuth auth;
     JwtAuth := Some a; LocalAuth := LocalAuth auth |}.

Definition set_LdapAuth (auth : Authentication W) (a : Authenticator W)
  : Authentication W :=
  {| db := db auth; sessionStore := sessionStore auth;
     SessionMaxAge := SessionMaxAge auth;
     authenticators := authenticators auth; LdapAuth := Some a;
     JwtAuth := JwtAuth auth; LocalAuth := LocalAuth auth |}.

Definition set_LocalAuth (auth : Authentication W) (a : Authenticator W)
  : Authentication W :=
  {| db := db auth; sessionStore := sessionStore auth;
     SessionMaxAge := SessionMaxAge auth;
     authenticators := authenticators auth; LdapAuth := LdapAuth auth;
     JwtAuth := JwtAuth auth; LocalAuth := Some a |}.

(** [auth.authenticators = append(auth.authenticators, a)] *)
Definition append_authenticator (auth : Authentication W) (a : Authenticator W)
  : Authentication W :=
  {| db := db auth; sessionStore := sessionStore auth;
     SessionMaxAge := SessionMaxAge auth;
     authenticators := authenticators auth ++ [a]; LdapAuth := LdapAuth auth;
     JwtAuth := JwtAuth auth; LocalAuth := LocalAuth auth |}.

(** [&T{}] for a concrete authenticator type [T]. *)
Definition new_authenticator (k : AuthenticatorKind) : Authenticator W :=
  {| kind := k; methods := implementation env k |}.

(** [a.Init(auth, config)] *)
Definition call_Init (a : Authenticator W) (config : Any) : M W (option error) :=
  call (Init_ (methods a) config) (EvInit (kind a) config).

(** [configs[key]]: the nil interface when the key is absent. *)
Definition config_at (configs : gmap string Any) (key : string) : Any :=
  default ANil (configs !! key).

(** Lines 134-150 of [Init]: the session key and the cookie store. *)
Definition Init_sessionStore (auth : Authentication W)
  : M W (option (Authentication W) * option error) :=
  fun w =>
    let sessKey := os_Getenv env "SESSION_KEY" w in
    if String.eqb sessKey "" then
      (log LWarn "environment variable 'SESSION_KEY' not set (will use non-persistent random key)" [];;
       '(bytes, err) ← call (rand_Read env 32) (fun res => EvRandRead 32 res.2);
       match err with
       | Some e =>
         log LError "Error while initializing authentication -> failed to generate random bytes for session key" [];;
         mret (None, Some e)
       | None => mret (Some (set_sessionStore auth (NewCookieStore bytes)), None)
       end) w
    else
      (match base64_DecodeString env sessKey with
       | (_, Some e) =>
         log LError "Error while initializing authentication -> decoding session key failed" [];;
         mret (None, Some e)
       | (bytes, None) =>
         mret (Some (set_sessionStore auth (NewCookieStore bytes)), None)
       end) w.

(** Lines 152-188 of [Init]: the authenticators.  The second optional
    block declares [jwtCookieSessionAuth] and calls [Init] on
    [jwtSessionAuth], as the source does. *)
Definition Init_authenticators (auth : Authentication W)
    (configs : gmap string Any)
  : M W (option (Authentication W) * option error) :=
  let jwtAuth := new_authenticator JWTAuthenticator in
  let auth := set_JwtAuth auth jwtAuth in
  err ← call_Init jwtAuth (config_at configs "jwt");
  match err with
  | Some e =>
    log LError "Error while initializing authentication -> jwtAuth init failed" [];;
    mret (None, Some e)
  | None =>
    res ← match configs !! "ldap" with
          | Some config =>
            let ldapAuth := new_authenticator LdapAuthenticator in
            let auth := set_LdapAuth auth ldapAuth in
            err ← call_Init ldapAuth config;
            match err with
            | Some e =>
              log LError "Error while initializing authentication -> ldapAuth init failed" [];;
              mret (inr e)
            | None => mret (inl (append_authenticator auth ldapAuth))
            end
          | None => mret (inl auth)
          end;
    match res with
    | inr e => mret (None, Some e)
    | inl auth =>
      let jwtSessionAuth := new_authenticator JWTSessionAuthenticator in
      err ← call_Init jwtSessionAuth (config_at configs "jwt");
      auth ← match err with
             | Some _ =>
               log LWarn "Error while initializing authentication -> jwtSessionAuth init failed" [];;
               mret auth
             | None => mret (append_authenticator auth jwtSessionAuth)
             end;
      let jwtCookieSessionAuth := new_authenticator JWTCookieSessionAuthenticator in
      err ← call_Init jwtSessionAuth (config_at configs "jwt");
      auth ← match err with
             | Some _ =>
               log LWarn "Error while initializing authentication -> jwtCookieSessionAuth init failed" [];;
               mret auth
             | None => mret (append_authenticator auth jwtCookieSessionAuth)
             end;
      let localAuth := new_authenticator LocalAuthenticator in
      let auth := set_LocalAuth auth localAuth in
      err ← call_Init localAuth ANil;
      match err with
      | Some e =>
        log LError "Error while initializing authentication -> localAuth init failed" [];;
        mret (None, Some e)
      | None =>
        let auth := append_authenticator auth localAuth in
        mret (Some auth, None)
      end
    end
  end.

(** [func Init(db, configs)], returning an [Authentication] pointer and
    an [error]. *)
Definition Init (d : nat) (configs : gmap string Any)
  : M W (option (Authentication W) * option error) :=
  let auth := set_db Authentication_zero d in
  res ← Init_sessionStore auth;
  match res with
  | (Some auth, None) => Init_authenticators auth configs
  | (_, err) => mret (None, err)
  end.

End Orchestrator.

Section Handlers.
Context {W : Type} (env : Collaborators W).

(** [int(auth.SessionMaxAge.Seconds())] *)
Definition SessionMaxAge_seconds (d : Z) : Z := int_of_float64 (Seconds d).

(** Lines 196-205 of [Login]: the candidate user and the error that the
    final [onfailure] call will receive.  The assignment
    [dbUser, err = auth.GetUser(username)] writes the same variable [err]
    that was initialised with "no authenticator applied". *)
Definition Login_candidate (r : Request)
  : M W (option User * option error) :=
  let err := Some (errors_New "no authenticator applied") in
  let username := FormValue r "username" in
  if String.eqb username "" then mret (None, err)
  else
    '(dbUser, err) ← call (db_GetUser env username)
                          (fun res => EvGetUser username res.1 res.2);
    match err with
    | Some e =>
      if is_ErrNoRows e then mret (dbUser, err)
      else
        log LError "Error while loading user '%v'" [AString username];;
        mret (dbUser, err)
    | None => mret (dbUser, err)
    end.

(** Lines 219-249 of [Login]: what follows a successful
    [authenticator.Login]. *)
Definition Login_establish (auth : Authentication W) (r : Request)
    (dbUser user : option User) : M W unit :=
  match sessionStore auth with
  | None => panic "invalid memory address or nil pointer dereference"
  | Some _ =>
  '(session, err) ← call (store_New env (sessionStore auth) r "session")
                         (fun res => EvSessionNew res.1 res.2);
  match err with
  | Some e =>
    log LError "session creation failed: %s" [AString (Error e)];;
    http_Error (Error e) StatusInternalServerError
  | None =>
    let session :=
      if SessionMaxAge auth =? 0 then session
      else set_MaxAge session (SessionMaxAge_seconds (SessionMaxAge auth)) in
    match user with
    | None => panic "invalid memory address or nil pointer dereference"
    | Some u =>
      let session := set_Value session "username" (AString (Username u)) in
      let session := set_Value session "projects" (AStrings (Projects u)) in
      let session := set_Value session "roles" (AStrings (Roles u)) in
      err ← call (store_Save env (sessionStore auth) r session)
                 (EvSessionSave session);
      match err with
      | Some e =>
        log LWarn "session save failed: %s" [AString (Error e)];;
        http_Error (Error e) StatusInternalServerError
      | None =>
        match dbUser with
        | None =>
          err ← call (db_AddUser env u) (EvAddUser u);
          match err with
          | Some _ =>
            log LError "Error while adding user '%v' to auth from XX"
                [AString (Username u)]
          | None => mret tt
          end
        | Some _ => mret tt
        end;;
        log LInfo "login successfull: user: %#v (roles: %v, projects: %v)"
            [AString (Username u); AStrings (Roles u); AStrings (Projects u)];;
        onsuccess (WithContext r (WithValue (Ctx r) ContextUserKey (AUser (Some u))))
      end
    end
  end
  end.

(** Lines 207-253 of [Login]: the loop over [auth.authenticators], from
    index [i] on, and the fall-through after it. *)
Fixpoint Login_loop (auth : Authentication W) (r : Request)
    (dbUser : option User) (err : option error)
    (i : nat) (rest : list (Authenticator W)) : M W unit :=
  match rest with
  | [] =>
    log LDebug "login failed: no authenticator applied" [];;
    onfailure r err
  | authenticator :: rest' =>
    can ← call (CanLogin (methods authenticator) dbUser r)
               (EvCanLogin i (kind authenticator));
    if negb can then Login_loop auth r dbUser err (S i) rest'
    else
      '(user, err) ← call (Login_ (methods authenticator) dbUser r)
                          (fun res => EvLogin i (kind authenticator) res.1 res.2);
      match err with
      | Some e =>
        log LWarn "user login failed: %s" [AString (Error e)];;
        onfailure r (Some e)
      | None => Login_establish auth r dbUser user
      end
  end.

(** The handler returned by [func (auth *Authentication) Login]. *)
Definition Login (auth : Authentication W) (r : Request) : M W unit :=
  '(dbUser, err) ← Login_candidate r;
  Login_loop auth r dbUser err 0 (authenticators auth).

(** Lines 273-280 of [Auth]. *)
Definition Auth_finish (r : Request) (user : option User) : M W unit :=
  match user with
  | Some u =>
    onsuccess (WithContext r (WithValue (Ctx r) ContextUserKey (AUser (Some u))))
  | None =>
    log LDebug "authentication failed: no authenticator applied" [];;
    onfailure r (Some (errors_New "unauthorized (please login first)"))
  end.

(** The handler returned by [func (auth *Authentication) Auth]. *)
Definition Auth (auth : Authentication W) (r : Request) : M W unit :=
  '(user, err) ← call (AuthViaJWT env r) (fun res => EvAuthViaJWT res.1 res.2);
  match user with
  | None =>
    r1 ← request_after_Get env auth r;
    '(user, err) ← AuthViaSession env auth r;
    match err with
    | Some e =>
      log LInfo "authentication failed: %s" [AString (Error e)];;
      http_Error (Error e) StatusUnauthorized
    | None => Auth_finish r1 user
    end
  | Some _ => Auth_finish r user
  end.

(** The handler returned by [func (auth *Authentication) Logout]. *)
Definition Logout (auth : Authentication W) (r : Request) : M W unit :=
  match sessionStore auth with
  | None => panic "invalid memory address or nil pointer dereference"
  | Some _ =>
    r1 ← request_after_Get env auth r;
    '(session, err) ← call (store_Get env (sessionStore auth) r "session")
                           (fun res => EvSessionGet res.1 res.2);
    match err with
    | Some e => http_Error (Error e) StatusInternalServerError
    | None =>
      if negb (IsNew session) then
        let session := set_MaxAge session (-1) in
        err ← call (store_Save env (sessionStore auth) r1 session)
                   (EvSessionSave session);
        match err with
        | Some e => http_Error (Error e) StatusInternalServerError
        | None => onsuccess r1
        end
      else onsuccess r1
    end
  end.

End Handlers.

(** ** A reference set of collaborators

    A small concrete world used to run the handlers: a user table, one
    cookie jar holding the values of the persisted session, the receivers
    on which [Init] has been called so far, and authenticators whose
    answers are fixed per concrete type. *)

Module Reference.

Record World := mkWorld {
  users : gmap string User;
  cookie : option (gmap string Any);
  initialised : list AuthenticatorKind
}.

Definition default_MaxAge : Z := 86400 * 30.

Definition fresh_session : Session :=
  {| IsNew := true; Values := ∅; Options_ := {| MaxAge := default_MaxAge |} |}.

Definition GetUser_ref (username : string) (w : World)
  : (option User * option error) * World :=
  match users w !! username with
  | Some u => ((Some u, None), w)
  | None => ((None, Some sql_ErrNoRows), w)
  end.

Definition AddUser_ref (u : User) (w : World) : option error * World :=
  (None, {| users := <[Username u := u]> (users w); cookie := cookie w;
            initialised := initialised w |}).

Definition Get_ref (_ : option CookieStore) (_ : Request) (_ : string) (w : World)
  : (Session * option error) * World :=
  match cookie w with
  | Some vals =>
    (({| IsNew := false; Values := vals;
         Options_ := {| MaxAge := default_MaxAge |} |}, None), w)
  | None => ((fresh_session, None), w)
  end.

(** The context key under which the session library keeps its registry,
    and the request with the registry attached unless it already is. *)
Definition registryKey : CtxKey := KForeign "sessions.contextKey" "0".

Definition Get_request_ref (_ : option CookieStore) (r : Request) (_ : string)
    (_ : World) : Request :=
  match Value (Ctx r) registryKey with
  | ANil => WithContext r (WithValue (Ctx r) registryKey (AOther 0))
  | _ => r
  end.

Definition New_ref (_ : option CookieStore) (_ : Request) (_ : string) (w : World)
  : (Session * option error) * World :=
  ((fresh_session, None), w).

Definition Save_ref (_ : option CookieStore) (_ : Request) (s : Session) (w : World)
  : option error * World :=
  (None, {| users := users w;
            cookie := if MaxAge (Options_ s) <? 0 then None else Some (Values s);
            initialised := initialised w |}).

(** The answers of the concrete authenticator types; that of [Init] may
    depend on how often [Init] was called on the receiver before. *)
Record Answers := mkAnswers {
  init_answer : AuthenticatorKind -> nat -> option error;
  can_answer : AuthenticatorKind -> bool;
  login_answer : AuthenticatorKind -> option User * option error
}.

Definition collaborators (a : Answers) : Collaborators World :=
  {| db_GetUser := GetUser_ref;
     db_AddUser := AddUser_ref;
     store_Get := Get_ref;
     store_Get_request := Get_request_ref;
     store_New := New_ref;
     store_Save := Save_ref;
     AuthViaJWT := fun _ w => ((None, None), w);
     os_Getenv := fun _ _ => "";
     rand_Read := fun n w => ((repeat Byte.x00 n, None), w);
     base64_DecodeString := fun _ => ([], None);
     implementation := fun k =>
       {| Init_ := fun _ w =>
            (init_answer a k (count_occ AuthenticatorKind_eq_dec (initialised w) k),
             {| users := users w; cookie := cookie w;
                initialised := initialised w ++ [k] |});
          CanLogin := fun _ _ w => (can_answer a k, w);
          Login_ := fun _ _ w => (login_answer a k, w) |} |}.

Definition alice : User :=
  {| Username := "alice"; Password := ""; Name := "Alice";
     Roles := ["admin"]; AuthType_ := AuthSession;
     AuthSource_ := AuthViaLocalPassword; Email := "";
     Projects := ["p1"]; Expiration := 0 |}.

Definition empty_world : World :=
  {| users := ∅; cookie := None; initialised := [] |}.

Definition alice_world : World :=
  {| users := {[ "alice" := alice ]}; cookie := None; initialised := [] |}.

(** Every [Init] succeeds, only the local authenticator claims a login
    and it returns [alice]. *)
Definition local_only : Answers :=
  {| init_answer := fun _ _ => None;
     can_answer := fun k =>
       match k with LocalAuthenticator => true | _ => false end;
     login_answer := fun _ => (Some alice, None) |}.

Definition request (username : string) : Request :=
  {| Form := [("username", username)]; Header := []; Ctx := [] |}.

(** An orchestrator with the given registry and session lifetime. *)
Definition orchestrator (a : Answers) (maxAge : Z)
    (registry : list AuthenticatorKind) : Authentication World :=
  {| db := 0%nat; sessionStore := Some (NewCookieStore []);
     SessionMaxAge := maxAge;
     authenticators := map (new_authenticator (collaborators a)) registry;
     LdapAuth := None; JwtAuth := None; LocalAuth := None |}.

End Reference.

(** The values [Login] writes into a session (lines 229-231). *)
Definition Login_values (s : Session) (u : User) : Session :=
  set_Value (set_Value (set_Value s "username" (AString (Username u)))
                       "projects" (AStrings (Projects u)))
            "roles" (AStrings (Roles u)).

(** Unfolding of the monad's operations. *)
Ltac unfold_M :=
  unfold mbind, M_bind, mret, M_ret, call, log, http_Error, onsuccess,
    onfailure, emit, panic, trace, final, outcome in *.

(** Case analysis on the [Init] calls of the goal, in program order. *)
Ltac destruct_calls :=
  repeat (match goal with
          | |- context [Init_ ?m ?c ?w] => destruct (Init_ m c w) as [[?|] ?]
          end; simpl).

(** Case analysis on the branches of [Auth], in program order; the run
    on a nil store comes last. *)
Ltac run_Auth env auth r w :=
  unfold Auth, AuthViaSession, Auth_finish, request_after_Get; unfold_M;
  let w0 := fresh "w0" in
  destruct (AuthViaJWT env r w) as [[[?|] ?] w0]; simpl;
  [| destruct (sessionStore auth) as [?|] eqn:?; simpl;
     [ let s := fresh "s" in
       destruct (store_Get env _ r "session" w0) as [[s [?|]] ?]; simpl;
       [| destruct (IsNew s); simpl;
          [| destruct (AuthViaSession_decode s) as [[?|] [?|]]; simpl ]]
     | ]].

(** Case analysis on the branches of [Logout], in program order; the run
    on a nil store comes last. *)
Ltac run_Logout env auth r w :=
  unfold Logout, request_after_Get; unfold_M;
  destruct (sessionStore auth) as [?|] eqn:?; simpl;
  [ let s := fresh "s" in
    let w1 := fresh "w1" in
    destruct (store_Get env _ r "session" w) as [[s [?|]] w1]; simpl;
    [| destruct (IsNew s) eqn:?; simpl;
       [| destruct (store_Save env _ _ (set_MaxAge s (-1)) w1)
            as [[?|] ?]; simpl ]]
  | ].

(** Membership in an explicit trace. *)
Ltac in_trace H :=
  repeat (apply elem_of_cons in H as [H|H]; [try discriminate H|]);
  try (apply elem_of_nil in H; contradiction).

(** ** Views of a trace *)

(** The calls to authenticators made by [Login]. *)
Definition is_authenticator_call (e : Event) : bool :=
  match e with
  | EvCanLogin _ _ _ | EvLogin _ _ _ _ => true
  | _ => false
  end.

Definition authenticator_calls (t : list Event) : list Event :=
  List.filter is_authenticator_call t.


(** Events of the part of [Login] that precedes the session handling. *)
Definition is_selection_event (e : Event) : bool :=
  match e with
  | EvLog _ _ _ | EvGetUser _ _ _ | EvCanLogin _ _ _ | EvLogin _ _ _ _
  | EvOnFailure _ _ => true
  | _ => false
  end.

(** The users written to the user table. *)
Definition added_users (t : list Event) : list User :=
  omap (fun e => match e with EvAddUser u _ => Some u | _ => None end) t.

(** The sessions handed to [Save]. *)
Definition saved_sessions (t : list Event) : list Session :=
  omap (fun e => match e with EvSessionSave s _ => Some s | _ => None end) t.

(** The sessions returned by [New]. *)
Definition new_sessions (t : list Event) : list Session :=
  omap (fun e => match e with EvSessionNew s _ => Some s | _ => None end) t.

(** The requests handed to the success continuation. *)
Definition successes (t : list Event) : list Request :=
  omap (fun e => match e with EvOnSuccess r => Some r | _ => None end) t.

(** The dynamic types in the registry of a successful [Init]. *)
Definition registry_of {W : Type}
    (res : Outcome (option (Authentication W) * option error))
  : option (list AuthenticatorKind) :=
  match res with
  | Done (Some a, None) => Some (map kind (authenticators a))
  | _ => None
  end.

(** The [Init] calls of a trace, by dynamic type of the receiver. *)
Definition init_calls (t : list Event) : list AuthenticatorKind :=
  omap (fun e => match e with EvInit k _ _ => Some k | _ => None end) t.

(** The results of the [Init] calls on receivers of type [k]. *)
Definition init_results (k : AuthenticatorKind) (t : list Event)
  : list (option error) :=
  omap (fun e => match e with
                 | EvInit k' _ err => if decide (k' = k) then Some err else None
                 | _ => None
                 end) t.

(** [k] when the error is nil. *)
Definition when_nil (err : option error) (k : AuthenticatorKind)
  : list AuthenticatorKind :=
  match err with
  | None => [k]
  | Some _ => []
  end.

(** The responses of a handler: a continuation entered or an HTTP error
    written. *)
Definition is_response (e : Event) : bool :=
  match e with
  | EvOnSuccess _ | EvOnFailure _ _ | EvHttpError _ _ => true
  | _ => false
  end.

Definition responses (t : list Event) : list Event :=
  List.filter is_response t.

(** Events that neither answer the request nor touch the session store
    or write the user table. *)
Definition is_quiet (e : Event) : bool :=
  match e with
  | EvLog _ _ _ | EvGetUser _ _ _ | EvCanLogin _ _ _ | EvLogin _ _ _ _ => true
  | _ => false
  end.

(** The usernames looked up in the user table. *)
Definition lookups (t : list Event) : list string :=
  omap (fun e => match e with EvGetUser n _ _ => Some n | _ => None end) t.

(** Calls that write: a session save or creation, a user-table write. *)
Definition is_write (e : Event) : bool :=
  match e with
  | EvSessionNew _ _ | EvSessionSave _ _ | EvAddUser _ _ => true
  | _ => false
  end.

(** The request [onsuccess] receives for user [u] (lines 247-248 and
    274-275). *)
Definition with_user (r : Request) (u : User) : Request :=
  WithContext r (WithValue (Ctx r) ContextUserKey (AUser (Some u))).

(** The key material [Init] obtains (lines 134-150): the 32 bytes read
    from the random source when [SESSION_KEY] is empty, else the decoded
    variable; with the error of that step. *)
Definition session_key_source {W : Type} (env : Collaborators W) (w : W)
  : list Byte.byte * option error :=
  if String.eqb (os_Getenv env "SESSION_KEY" w) "" then (rand_Read env 32 w).1
  else base64_DecodeString env (os_Getenv env "SESSION_KEY" w).

(** The candidate [dbUser] of a [Login] run from world [w]. *)
Definition Login_dbUser {W : Type} (env : Collaborators W) (r : Request) (w : W)
  : option User :=
  if String.eqb (FormValue r "username") "" then None
  else (db_GetUser env (FormValue r "username") w).1.1.

(** The session [Login] saves for user [u], given the session [s0]
    returned by [New] (lines 226-231). *)
Definition Login_session {W : Type} (auth : Authentication W)
    (s0 : Session) (u : User) : Session :=
  Login_values
    (if SessionMaxAge auth =? 0 then s0
     else set_MaxAge s0 (SessionMaxAge_seconds (SessionMaxAge auth))) u.

(** The user-table write of a successful [Login] (lines 238-244): none
    when a candidate existed, else one [AddUser], followed by an error
    log entry when it failed. *)
Definition LoginAdds (dbUser : option User) (u : User) (adds : list Event) : Prop :=
  match dbUser with
  | Some _ => adds = []
  | None =>
    adds = [EvAddUser u None] \/
    exists e,
      adds = [EvAddUser u (Some e);
              EvLog LError "Error while adding user '%v' to auth from XX"
                    [AString (Username u)]]
  end.

(** The ways a [Login] run ends, by the answer of the chosen
    authenticator ([None] when no authenticator was chosen): the events
    after the authenticator calls, and the outcome.  After an answer
    without error the run panics at once on a nil store. *)
Inductive LoginEnd {W : Type} (auth : Authentication W) (r : Request)
    (dbUser : option User) (err : option error)
  : option (option User * option error) -> list Event -> Outcome unit -> Prop :=
| end_none :
    LoginEnd auth r dbUser err None
      [EvLog LDebug "login failed: no authenticator applied" [];
       EvOnFailure r err] (Done tt)
| end_rejected (user : option User) (e : error) :
    LoginEnd auth r dbUser err (Some (user, Some e))
      [EvLog LWarn "user login failed: %s" [AString (Error e)];
       EvOnFailure r (Some e)] (Done tt)
| end_nil_store (user : option User) :
    sessionStore auth = None ->
    LoginEnd auth r dbUser err (Some (user, None)) []
      (Panic "invalid memory address or nil pointer dereference")
| end_new_failed (user : option User) (s0 : Session) (e : error) :
    sessionStore auth <> None ->
    LoginEnd auth r dbUser err (Some (user, None))
      [EvSessionNew s0 (Some e);
       EvLog LError "session creation failed: %s" [AString (Error e)];
       EvHttpError (Error e) StatusInternalServerError] (Done tt)
| end_nil_user (s0 : Session) :
    sessionStore auth <> None ->
    LoginEnd auth r dbUser err (Some (None, None))
      [EvSessionNew s0 None]
      (Panic "invalid memory address or nil pointer dereference")
| end_save_failed (u : User) (s0 : Session) (e : error) :
    sessionStore auth <> None ->
    LoginEnd auth r dbUser err (Some (Some u, None))
      [EvSessionNew s0 None;
       EvSessionSave (Login_session auth s0 u) (Some e);
       EvLog LWarn "session save failed: %s" [AString (Error e)];
       EvHttpError (Error e) StatusInternalServerError] (Done tt)
| end_success (u : User) (s0 : Session) (adds : list Event) :
    sessionStore auth <> None ->
    LoginAdds dbUser u adds ->
    LoginEnd auth r dbUser err (Some (Some u, None))
      ([EvSessionNew s0 None; EvSessionSave (Login_session auth s0 u) None]
       ++ adds ++
       [EvLog LInfo "login successfull: user: %#v (roles: %v, projects: %v)"
              [AString (Username u); AStrings (Roles u); AStrings (Projects u)];
        EvOnSuccess (with_user r u)]) (Done tt).

(** A [CanLogin] call answered with [false]. *)
Definition is_refusal (e : Event) : bool :=
  match e with
  | EvCanLogin _ _ false => true
  | _ => false
  end.

(** The authenticator calls made before the end: refusals only when no
    authenticator was chosen, else refusals followed by the accepting
    [CanLogin] and the [Login] call that gave the answer. *)
Definition chosen_call (chosen : option (option User * option error))
    (calls : list Event) : Prop :=
  match chosen with
  | None => Forall (fun e => is_refusal e = true) calls
  | Some (u, e) =>
    exists refused i k,
      calls = refused ++ [EvCanLogin i k true; EvLogin i k u e] /\
      Forall (fun e => is_refusal e = true) refused
  end.

(** ** Concrete runs *)

Module Examples.
Import Reference.

Definition env : Collaborators World := collaborators local_only.

Definition auth : Authentication World :=
  orchestrator local_only 0 [LdapAuthenticator; LocalAuthenticator].

(** A persisted session with the keys "username" and "projects" only. *)
Definition values_without_roles : gmap string Any :=
  <["username" := AString "alice"]> (<["projects" := AStrings ["p1"]]> ∅).

Definition world_without_roles : World :=
  {| users := ∅; cookie := Some values_without_roles; initialised := [] |}.

Definition decoded_alice : User :=
  {| Username := "alice"; Password := ""; Name := ""; Roles := ["p1"];
     AuthType_ := AuthSession; AuthSource_ := -1; Email := "";
     Projects := ["p1"]; Expiration := 0 |}.

(** The [User]s handed to the success continuation in a trace. *)
Definition served (t : list Event) : list (Outcome (option User)) :=
  omap (fun e => match e with
                 | EvOnSuccess r => Some (GetUser (Ctx r))
                 | _ => None
                 end) t.

(** Only the [Init] of the dedicated-cookie variant would fail. *)
Definition cookie_init_fails : Answers :=
  {| init_answer := fun k _ =>
       match k with
       | JWTCookieSessionAuthenticator => Some (errors_New "cookie init failed")
       | _ => None
       end;
     can_answer := fun _ => false;
     login_answer := fun _ => (None, Some (errors_New "unused")) |}.

(** Only the [Init] of the token-in-session variant fails. *)
Definition session_init_fails : Answers :=
  {| init_answer := fun k _ =>
       match k with
       | JWTSessionAuthenticator => Some (errors_New "session init failed")
       | _ => None
       end;
     can_answer := fun _ => false;
     login_answer := fun _ => (None, Some (errors_New "unused")) |}.

(** The token-in-session variant refuses to be initialised twice. *)
Definition second_init_fails : Answers :=
  {| init_answer := fun k n =>
       match k, n with
       | JWTSessionAuthenticator, S _ => Some (errors_New "already initialised")
       | _, _ => None
       end;
     can_answer := fun _ => false;
     login_answer := fun _ => (None, Some (errors_New "unused")) |}.

(** An orchestrator with a session lifetime of one hour, and the request
    its [Login] hands to the success continuation. *)
Definition auth_1h : Authentication World :=
  orchestrator local_only (3600 * Second) [LdapAuthenticator; LocalAuthenticator].

Definition served_alice : Request :=
  WithContext (request "")
    (WithValue (Ctx (request "")) ContextUserKey (AUser (Some alice))).

(** A persisted session without any value, and one whose username is
    not a string. *)
Definition world_empty_session : World :=
  {| users := ∅; cookie := Some ∅; initialised := [] |}.

Definition values_untyped_username : gmap string Any :=
  <["username" := AOther 7]> (<["projects" := AStrings ["p1"]]> ∅).

Definition world_untyped_username : World :=
  {| users := ∅; cookie := Some values_untyped_username; initialised := [] |}.

(** A world with the persisted session of [alice]. *)
Definition world_logged_in : World :=
  {| users := ∅; cookie := Some (Values (Login_values fresh_session alice));
     initialised := [] |}.

Definition session_logged_in : Session :=
  {| IsNew := false; Values := Values (Login_values fresh_session alice);
     Options_ := {| MaxAge := default_MaxAge |} |}.

(** The local authenticator returns neither user nor error. *)
Definition nil_login : Answers :=
  {| init_answer := fun _ _ => None;
     can_answer := fun k =>
       match k with LocalAuthenticator => true | _ => false end;
     login_answer := fun _ => (None, None) |}.

(** The local authenticator rejects the credentials. *)
Definition rejected_login : Answers :=
  {| init_answer := fun _ _ => None;
     can_answer := fun k =>
       match k with LocalAuthenticator => true | _ => false end;
     login_answer := fun _ => (None, Some (errors_New "wrong password")) |}.

(** Collaborators whose user table rejects every write. *)
Definition env_table_down : Collaborators World :=
  {| db_GetUser := GetUser_ref;
     db_AddUser := fun _ w => (Some (errors_New "table down"), w);
     store_Get := Get_ref;
     store_Get_request := Get_request_ref;
     store_New := New_ref;
     store_Save := Save_ref;
     AuthViaJWT := AuthViaJWT env;
     os_Getenv := os_Getenv env;
     rand_Read := rand_Read env;
     base64_DecodeString := base64_DecodeString env;
     implementation := implementation env |}.

(** The [Init] of the local authenticator fails. *)
Definition local_init_fails : Answers :=
  {| init_answer := fun k _ =>
       match k with
       | LocalAuthenticator => Some (errors_New "local init failed")
       | _ => None
       end;
     can_answer := fun _ => false;
     login_answer := fun _ => (None, Some (errors_New "unused")) |}.

(** A configuration with a directory block. *)
Definition configs_ldap : gmap string Any :=
  <["ldap" := AString "ldap://directory"]> ∅.

(** Collaborators whose cookie store cannot decode the cookie of the
    request: [Get] returns a new session together with an error. *)
Definition env_stale_cookie : Collaborators World :=
  {| db_GetUser := GetUser_ref;
     db_AddUser := AddUser_ref;
     store_Get := fun _ _ _ w =>
       ((fresh_session, Some (errors_New "securecookie: the value is not valid")), w);
     store_Get_request := Get_request_ref;
     store_New := New_ref;
     store_Save := Save_ref;
     AuthViaJWT := AuthViaJWT env;
     os_Getenv := os_Getenv env;
     rand_Read := rand_Read env;
     base64_DecodeString := base64_DecodeString env;
     implementation := implementation env |}.

(** The request of [request ""] with the registry attached. *)
Definition registered_request : Request :=
  Get_request_ref None (request "") "session" empty_world.

(** Orchestrators with a session lifetime of half a second, and of
    16777216.999999999 seconds. *)
Definition auth_500ms : Authentication World :=
  orchestrator local_only 500000000 [LdapAuthenticator; LocalAuthenticator].

Definition auth_194d : Authentication World :=
  orchestrator local_only (16777216 * Second + 999999999)
               [LdapAuthenticator; LocalAuthenticator].

(** An orchestrator whose session store was never set. *)
Definition auth_nil_store : Authentication World :=
  {| db := 0%nat; sessionStore := None; SessionMaxAge := 0;
     authenticators := authenticators auth;
     LdapAuth := None; JwtAuth := None; LocalAuth := None |}.

End Examples.

(** * Properties *)

(** ** The context accessor *)

Lemma CtxKey_eqb_eq (a b : CtxKey) : CtxKey_eqb a b = true <-> a = b.
Proof.
  destruct a as [s|ty s], b as [t|ty' t]; simpl; split; intros H;
    try discriminate; try congruence.
  - apply String.eqb_eq in H. congruence.
  - injection H as ->. apply String.eqb_refl.
  - apply andb_true_iff in H as [H1 H2].
    apply String.eqb_eq in H1, H2. congruence.
  - injection H as -> ->. rewrite !String.eqb_refl. reflexivity.
Qed.

Lemma Value_absent (ctx : Context) (k : CtxKey) :
  Forall (fun kv => kv.1 <> k) ctx -> Value ctx k = ANil.
Proof.
  induction 1 as [|[k' v] parent Hk _ IH]; simpl; [reflexivity|].
  destruct (CtxKey_eqb k' k) eqn:E; [|exact IH].
  apply CtxKey_eqb_eq in E. simpl in Hk. contradiction.
Qed.

Lemma Value_WithValue (ctx : Context) (k : CtxKey) (v : Any) :
  Value (WithValue ctx k v) k = v.
Proof.
  unfold WithValue. simpl.
  replace (CtxKey_eqb k k) with true; [reflexivity|].
  symmetry. apply CtxKey_eqb_eq. reflexivity.
Qed.

(** C10: on a context with no value under [ContextUserKey], [GetUser]
    returns nil and does not panic; a [User] attached under the key is
    returned as it is, and [GetUser] returns a [User] only when that
    [User] is the value under the key. *)
Theorem GetUser_absent_or_attached (ctx : Context) :
  (Forall (fun kv => kv.1 <> ContextUserKey) ctx -> GetUser ctx = Done None) /\
  (Value ctx ContextUserKey = ANil -> GetUser ctx = Done None) /\
  (forall u, GetUser (WithValue ctx ContextUserKey (AUser (Some u))) = Done (Some u)) /\
  (forall u, GetUser ctx = Done (Some u) <-> Value ctx ContextUserKey = AUser (Some u)).
Proof.
  unfold GetUser. split; [|split; [|split]].
  - intros H. rewrite (Value_absent _ _ H). reflexivity.
  - intros ->. reflexivity.
  - intros u. rewrite Value_WithValue. reflexivity.
  - intros u. split.
    + destruct (Value ctx ContextUserKey); intros H; try discriminate.
      injection H as ->. reflexivity.
    + intros ->. reflexivity.
Qed.

(** A context that only carries another package's key of the same text. *)
Lemma GetUser_absent_or_attached_witness :
  GetUser [(KForeign "string" "user", AString "x")] = Done None /\
  GetUser (WithValue [] ContextUserKey (AUser (Some Reference.alice)))
    = Done (Some Reference.alice).
Proof.
  pose proof (GetUser_absent_or_attached [(KForeign "string" "user", AString "x")])
    as (H & _ & _ & _).
  pose proof (GetUser_absent_or_attached []) as (_ & _ & H' & _).
  split; [apply H | apply H'].
  repeat constructor. simpl. discriminate.
Defined.

(** ** The session decoder *)

Lemma Login_values_lookup (s : Session) (u : User) :
  Values (Login_values s u) !! "username" = Some (AString (Username u)) /\
  Values (Login_values s u) !! "projects" = Some (AStrings (Projects u)) /\
  Values (Login_values s u) !! "roles" = Some (AStrings (Roles u)).
Proof.
  unfold Login_values, set_Value. simpl. repeat split.
  - rewrite lookup_insert_ne by discriminate.
    rewrite lookup_insert_ne by discriminate.
    apply lookup_insert_eq.
  - rewrite lookup_insert_ne by discriminate. apply lookup_insert_eq.
  - apply lookup_insert_eq.
Qed.

(** What the decoder makes of a session. *)
Lemma AuthViaSession_decode_cases (s : Session) :
  match Values s !! "username", Values s !! "projects" with
  | None, _ =>
    AuthViaSession_decode s = (None, Some (errors_New "No key username in session"))
  | Some _, None =>
    AuthViaSession_decode s = (None, Some (errors_New "No key projects in session"))
  | Some n, Some p =>
    AuthViaSession_decode s =
      (Some {| Username := as_string n; Password := ""; Name := "";
               Roles := as_strings p; AuthType_ := AuthSession;
               AuthSource_ := -1; Email := ""; Projects := as_strings p;
               Expiration := 0 |}, None)
  end.
Proof.
  unfold AuthViaSession_decode.
  destruct (Values s !! "username"); [|reflexivity].
  destruct (Values s !! "projects"); reflexivity.
Qed.

(** The decoder never reads the key "roles": the values stored under it,
    or its absence, do not change the result. *)
Lemma AuthViaSession_decode_ignores_roles (s : Session) (v : Any) :
  AuthViaSession_decode (set_Value s "roles" v) = AuthViaSession_decode s /\
  AuthViaSession_decode
    {| IsNew := IsNew s; Values := delete "roles" (Values s);
       Options_ := Options_ s |} = AuthViaSession_decode s.
Proof.
  unfold AuthViaSession_decode, set_Value. simpl.
  rewrite !lookup_insert_ne by discriminate.
  rewrite !lookup_delete_ne by discriminate.
  split; reflexivity.
Qed.

(** The error that names the key "roles" is never produced. *)
Lemma AuthViaSession_decode_never_names_roles (s : Session) (u : option User) :
  AuthViaSession_decode s <> (u, Some (errors_New "No key roles in session")).
Proof.
  pose proof (AuthViaSession_decode_cases s) as H.
  destruct (Values s !! "username"); [destruct (Values s !! "projects")|];
    rewrite H; intros E; inversion E.
Qed.

(** Decoding the session that [Login] persisted for [u]: the username
    and the projects are those of [u], the roles are the projects. *)
Lemma AuthViaSession_decode_Login_values (s0 s : Session) (u : User) :
  Values s = Values (Login_values s0 u) ->
  AuthViaSession_decode s =
    (Some {| Username := Username u; Password := ""; Name := "";
             Roles := Projects u; AuthType_ := AuthSession;
             AuthSource_ := -1; Email := ""; Projects := Projects u;
             Expiration := 0 |}, None).
Proof.
  intros H. pose proof (AuthViaSession_decode_cases s) as D.
  destruct (Login_values_lookup s0 u) as (Hn & Hp & _).
  rewrite H, Hn, Hp in D. exact D.
Qed.

Lemma AuthViaSession_decode_provenance (s : Session) (u : User) (err : option error) :
  AuthViaSession_decode s = (Some u, err) ->
  AuthType_ u = AuthSession /\ AuthSource_ u = -1.
Proof.
  pose proof (AuthViaSession_decode_cases s) as H.
  destruct (Values s !! "username"); [destruct (Values s !! "projects")|];
    rewrite H; intros E; inversion E; subst; simpl; split; reflexivity.
Qed.

(** C9: a [User] that [AuthViaSession] reconstructs from a session has
    [AuthType] [AuthSession] and [AuthSource] [-1], which is none of
    [AuthViaLocalPassword], [AuthViaLDAP], [AuthViaToken]. *)
Theorem AuthViaSession_provenance {W : Type} (env : Collaborators W)
    (auth : Authentication W) (r : Request) (w : W)
    (u : User) (err : option error) :
  outcome (AuthViaSession env auth r w) = Done (Some u, err) ->
  AuthType_ u = AuthSession /\
  AuthSource_ u = -1 /\
  AuthSource_ u <> AuthViaLocalPassword /\
  AuthSource_ u <> AuthViaLDAP /\
  AuthSource_ u <> AuthViaToken.
Proof.
  unfold AuthViaSession. unfold_M.
  destruct (sessionStore auth) as [store|]; [|intros H; discriminate H].
  destruct (store_Get env (Some store) r "session" w) as [[s e] w'].
  simpl. intros H.
  assert (AuthViaSession_decode s = (Some u, err)) as D.
  { destruct e; simpl in H; [discriminate|].
    destruct (IsNew s); simpl in H; [discriminate|]. congruence. }
  destruct (AuthViaSession_decode_provenance _ _ _ D) as [Ht Hs].
  rewrite Hs. repeat split; try assumption; discriminate.
Qed.

Lemma AuthViaSession_provenance_witness :
  AuthType_ Examples.decoded_alice = AuthSession /\
  AuthSource_ Examples.decoded_alice = -1 /\
  AuthSource_ Examples.decoded_alice <> AuthViaLocalPassword /\
  AuthSource_ Examples.decoded_alice <> AuthViaLDAP /\
  AuthSource_ Examples.decoded_alice <> AuthViaToken.
Proof.
  apply (AuthViaSession_provenance Examples.env Examples.auth
           (Reference.request "") Examples.world_without_roles
           Examples.decoded_alice None).
  vm_compute. reflexivity.
Defined.

(** C1: [Login] persists the session of [alice] (roles [admin], projects
    [p1]); [Auth] on the next request decodes it into a [User] with the
    same username and projects but with roles [p1]: the roles do not
    survive the round trip. *)
Theorem Login_then_Auth_roles_not_preserved :
  let login := Login Examples.env Examples.auth (Reference.request "")
                     Reference.empty_world in
  let auth := Auth Examples.env Examples.auth (Reference.request "")
                   (final login) in
  Examples.served (trace login) = [Done (Some Reference.alice)] /\
  exists u,
    Examples.served (trace auth) = [Done (Some u)] /\
    Username u = Username Reference.alice /\
    Projects u = Projects Reference.alice /\
    Roles u = Projects Reference.alice /\
    ~ (forall x, x ∈ Roles u <-> x ∈ Roles Reference.alice).
Proof.
  simpl. split; [vm_compute; reflexivity|].
  exists Examples.decoded_alice.
  split; [vm_compute; reflexivity|].
  repeat split.
  intros H. specialize (H "admin"). simpl in H.
  assert ("admin" ∈ ["p1"]) as Hin by (apply H; constructor).
  apply list_elem_of_singleton in Hin. discriminate.
Qed.

(** C2: a persisted, non-new session that has "username" and "projects"
    but no "roles" is decoded without error, its roles being taken from
    "projects", and [Auth] enters the success continuation. *)
Theorem Auth_accepts_session_without_roles :
  Examples.values_without_roles !! "roles" = None /\
  outcome (AuthViaSession Examples.env Examples.auth (Reference.request "")
                          Examples.world_without_roles)
    = Done (Some Examples.decoded_alice, None) /\
  Examples.served (trace (Auth Examples.env Examples.auth (Reference.request "")
                               Examples.world_without_roles))
    = [Done (Some Examples.decoded_alice)].
Proof.
  repeat split; vm_compute; reflexivity.
Qed.

(** ** Login with an empty registry *)

(** With no username in the form, an empty registry ends in the failure
    continuation with the error "no authenticator applied". *)
Lemma Login_empty_registry_no_username {W : Type} (env : Collaborators W)
    (auth : Authentication W) (r : Request) (w : W) :
  authenticators auth = [] ->
  FormValue r "username" = "" ->
  trace (Login env auth r w) =
    [EvLog LDebug "login failed: no authenticator applied" [];
     EvOnFailure r (Some (errors_New "no authenticator applied"))] /\
  final (Login env auth r w) = w.
Proof.
  intros Ha Hu. unfold Login, Login_candidate. rewrite Ha, Hu.
  split; reflexivity.
Qed.

(** With a username, the error handed to the failure continuation is the
    one returned by the user lookup, nil included. *)
Lemma Login_empty_registry_username {W : Type} (env : Collaborators W)
    (auth : Authentication W) (r : Request) (w : W) :
  authenticators auth = [] ->
  FormValue r "username" <> "" ->
  last (trace (Login env auth r w)) =
    Some (EvOnFailure r (db_GetUser env (FormValue r "username") w).1.2).
Proof.
  intros Ha Hu. unfold Login, Login_candidate. rewrite Ha.
  apply String.eqb_neq in Hu. rewrite Hu. unfold_M.
  destruct (db_GetUser env (FormValue r "username") w) as [[u [e|]] w'];
    simpl; [destruct (is_ErrNoRows e)|]; reflexivity.
Qed.

(** C3: with an empty registry and a username that the user table
    resolves, the failure continuation receives a nil error; with a
    username the table does not know it receives [sql.ErrNoRows].  In
    neither run is the error "no authenticator applied" passed on. *)
Theorem Login_empty_registry_passes_lookup_error :
  trace (Login Examples.env (Reference.orchestrator Reference.local_only 0 [])
               (Reference.request "alice") Reference.alice_world) =
    [EvGetUser "alice" (Some Reference.alice) None;
     EvLog LDebug "login failed: no authenticator applied" [];
     EvOnFailure (Reference.request "alice") None] /\
  trace (Login Examples.env (Reference.orchestrator Reference.local_only 0 [])
               (Reference.request "bob") Reference.alice_world) =
    [EvGetUser "bob" None (Some sql_ErrNoRows);
     EvLog LDebug "login failed: no authenticator applied" [];
     EvOnFailure (Reference.request "bob") (Some sql_ErrNoRows)].
Proof.
  split; vm_compute; reflexivity.
Qed.

(** ** Initialization *)

Section InitRuns.
Context {W : Type} (env : Collaborators W).

(** The first part of [Init] initialises no authenticator and either
    fails or installs a cookie store. *)
Lemma Init_sessionStore_run (auth : Authentication W) (w : W) :
  exists t w' res,
    Init_sessionStore env auth w = (t, w', Done res) /\
    (forall k cfg e, EvInit k cfg e ∉ t) /\
    init_calls t = [] /\
    (forall k, init_results k t = []) /\
    ((exists e, res = (None, Some e)) \/
     (exists key, res = (Some (set_sessionStore auth (NewCookieStore key)), None))).
Proof.
  unfold Init_sessionStore. unfold_M.
  destruct (String.eqb (os_Getenv env "SESSION_KEY" w) "").
  - destruct (rand_Read env 32 w) as [[bytes [e|]] w']; simpl;
      eexists _, _, _; (split; [reflexivity|]);
      (split; [intros k cfg e' H; in_trace H|]);
      (split; [reflexivity|]); (split; [reflexivity|]); eauto.
  - destruct (base64_DecodeString env (os_Getenv env "SESSION_KEY" w))
      as [bytes [e|]]; simpl;
      eexists _, _, _; (split; [reflexivity|]);
      (split; [intros k cfg e' H; in_trace H|]);
      (split; [reflexivity|]); (split; [reflexivity|]); eauto.
Qed.

(** [Init] is its first part, followed on success by the second part
    run on an orchestrator with an empty registry. *)
Lemma Init_run (d : nat) (configs : gmap string Any) (w : W) :
  exists t,
    (forall k cfg e, EvInit k cfg e ∉ t) /\
    init_calls t = [] /\
    (forall k, init_results k t = []) /\
    ((exists w' e, Init env d configs w = (t, w', Done (None, Some e))) \/
     (exists auth w',
        authenticators auth = [] /\
        trace (Init env d configs w) =
          t ++ trace (Init_authenticators env auth configs w') /\
        outcome (Init env d configs w) =
          outcome (Init_authenticators env auth configs w'))).
Proof.
  destruct (Init_sessionStore_run (set_db Authentication_zero d) w)
    as (t & w' & res & HS & H1 & H2 & H3 & [[e ->]|[key ->]]);
    exists t; (split; [exact H1|]); (split; [exact H2|]); (split; [exact H3|]).
  - left. exists w', e. unfold Init. unfold mbind, M_bind. rewrite HS.
    unfold mret, M_ret. rewrite app_nil_r. reflexivity.
  - right.
    exists (set_sessionStore (set_db Authentication_zero d) (NewCookieStore key)), w'.
    split; [reflexivity|].
    unfold Init. unfold mbind, M_bind. rewrite HS.
    destruct (Init_authenticators env _ configs w') as [[t2 w2] o].
    split; reflexivity.
Qed.

Lemma Init_authenticators_calls (auth : Authentication W)
    (configs : gmap string Any) (w : W) :
  JWTCookieSessionAuthenticator ∉
    init_calls (trace (Init_authenticators env auth configs w)).
Proof.
  unfold Init_authenticators, call_Init, new_authenticator, init_calls.
  unfold_M. simpl.
  destruct (configs !! "ldap"); destruct_calls; intros H; in_trace H.
Qed.

Lemma Init_authenticators_mandatory (auth : Authentication W)
    (configs : gmap string Any) (w : W)
    (k : AuthenticatorKind) (cfg : Any) (e : error) :
  EvInit k cfg (Some e) ∈ trace (Init_authenticators env auth configs w) ->
  k <> JWTSessionAuthenticator ->
  outcome (Init_authenticators env auth configs w) = Done (None, Some e).
Proof.
  unfold Init_authenticators, call_Init, new_authenticator.
  unfold_M. simpl.
  destruct (configs !! "ldap"); destruct_calls; intros H Hk; in_trace H;
    try congruence.
Qed.

Lemma Init_authenticators_registry (auth : Authentication W)
    (configs : gmap string Any) (w : W) (ks : list AuthenticatorKind) :
  registry_of (outcome (Init_authenticators env auth configs w)) = Some ks ->
  exists e1 e2,
    init_results JWTSessionAuthenticator
      (trace (Init_authenticators env auth configs w)) = [e1; e2] /\
    ks = map kind (authenticators auth) ++
         match configs !! "ldap" with
         | Some _ => [LdapAuthenticator]
         | None => []
         end ++
         when_nil e1 JWTSessionAuthenticator ++
         when_nil e2 JWTCookieSessionAuthenticator ++
         [LocalAuthenticator].
Proof.
  unfold Init_authenticators, call_Init, new_authenticator, registry_of, init_results.
  unfold_M. simpl.
  destruct (configs !! "ldap"); destruct_calls; intros H;
    try discriminate H; injection H as <-;
    eexists _, _; (split; [reflexivity|]);
    rewrite ?map_app, <- ?app_assoc; reflexivity.
Qed.


(** The [Init] of [JWTCookieSessionAuthenticator] is never called. *)
Lemma Init_never_initialises_cookie_variant (d : nat)
    (configs : gmap string Any) (w : W) :
  JWTCookieSessionAuthenticator ∉ init_calls (trace (Init env d configs w)).
Proof.
  destruct (Init_run d configs w)
    as (t & _ & Hc & _ & [(w' & e & ->)|(auth & w' & _ & -> & _)]).
  - change (JWTCookieSessionAuthenticator ∉ init_calls t).
    rewrite Hc. apply not_elem_of_nil.
  - unfold init_calls in *. rewrite omap_app, Hc.
    apply Init_authenticators_calls.
Qed.

(** A failing [Init] of an authenticator other than the token-in-session
    one makes [Init] return that error and no orchestrator. *)
Lemma Init_mandatory_failure_aborts (d : nat) (configs : gmap string Any)
    (w : W) (k : AuthenticatorKind) (cfg : Any) (e : error) :
  EvInit k cfg (Some e) ∈ trace (Init env d configs w) ->
  k <> JWTSessionAuthenticator ->
  outcome (Init env d configs w) = Done (None, Some e).
Proof.
  destruct (Init_run d configs w)
    as (t & Hno & _ & _ & [(w' & e' & ->)|(auth & w' & _ & -> & ->)]).
  - simpl. intros H. destruct (Hno _ _ _ H).
  - intros H Hk. apply elem_of_app in H as [H|H]; [destruct (Hno _ _ _ H)|].
    exact (Init_authenticators_mandatory auth configs w' k cfg e H Hk).
Qed.

(** The registry of a successful [Init]: the directory authenticator
    when configured, the token-in-session one when the first [Init] call
    on it returned nil, the dedicated-cookie one when the second [Init]
    call on the token-in-session authenticator returned nil, and the
    local one. *)
Lemma Init_registry (d : nat) (configs : gmap string Any) (w : W)
    (ks : list AuthenticatorKind) :
  registry_of (outcome (Init env d configs w)) = Some ks ->
  exists e1 e2,
    init_results JWTSessionAuthenticator (trace (Init env d configs w))
      = [e1; e2] /\
    ks = match configs !! "ldap" with
         | Some _ => [LdapAuthenticator]
         | None => []
         end ++
         when_nil e1 JWTSessionAuthenticator ++
         when_nil e2 JWTCookieSessionAuthenticator ++
         [LocalAuthenticator].
Proof.
  destruct (Init_run d configs w)
    as (t & _ & _ & Hr & [(w' & e & ->)|(auth & w' & Ha & -> & ->)]).
  - simpl. discriminate.
  - intros H.
    destruct (Init_authenticators_registry auth configs w' ks H)
      as (e1 & e2 & Hres & ->).
    exists e1, e2. unfold init_results in *.
    rewrite omap_app, Hr, Hres, Ha. split; reflexivity.
Qed.

End InitRuns.

(** C5: when only the [Init] of [JWTCookieSessionAuthenticator] would
    fail, [Init] succeeds with that authenticator in the registry, and
    its [Init] is never called: [JWTSessionAuthenticator] is initialised
    twice instead.  When the second [Init] call on the
    [JWTSessionAuthenticator] fails, that authenticator stays in the
    registry and the other one is left out.  When both calls fail, both
    optional authenticators are left out. *)
Theorem Init_registers_uninitialised_cookie_authenticator :
  let run := Init (Reference.collaborators Examples.cookie_init_fails) 0%nat ∅
                  Reference.empty_world in
  let run2 := Init (Reference.collaborators Examples.second_init_fails) 0%nat ∅
                   Reference.empty_world in
  let run' := Init (Reference.collaborators Examples.session_init_fails) 0%nat ∅
                   Reference.empty_world in
  (registry_of (outcome run) =
     Some [JWTSessionAuthenticator; JWTCookieSessionAuthenticator;
           LocalAuthenticator] /\
   init_calls (trace run) =
     [JWTAuthenticator; JWTSessionAuthenticator; JWTSessionAuthenticator;
      LocalAuthenticator]) /\
  (init_results JWTSessionAuthenticator (trace run2) =
     [None; Some (errors_New "already initialised")] /\
   registry_of (outcome run2) =
     Some [JWTSessionAuthenticator; LocalAuthenticator]) /\
  registry_of (outcome run') = Some [LocalAuthenticator].
Proof.
  repeat split; vm_compute; reflexivity.
Qed.

(** ** Logout *)

(** A new session is never saved, whatever else the fetch reports. *)
Lemma Logout_new_session_not_saved {W : Type} (env : Collaborators W)
    (auth : Authentication W) (r : Request) (w w1 : W)
    (s : Session) (err : option error) :
  sessionStore auth <> None ->
  store_Get env (sessionStore auth) r "session" w = ((s, err), w1) ->
  IsNew s = true ->
  final (Logout env auth r w) = w1 /\
  forall s' e, EvSessionSave s' e ∉ trace (Logout env auth r w).
Proof.
  intros HS HG HN. unfold Logout, request_after_Get. unfold_M.
  destruct (sessionStore auth) as [store|]; [|contradiction].
  rewrite HG.
  destruct err; simpl; [|rewrite HN; simpl]; (split; [reflexivity|]);
    intros s' e' Hin;
    repeat (apply elem_of_cons in Hin as [Hin|Hin]; [discriminate|]);
    inversion Hin.
Qed.

(** C6, as the code has it: on an orchestrator with a session store,
    when the fetch returns an error, also beside a new session, [Logout]
    writes status 500, saves nothing and enters no continuation.  When the
    fetch returns no error and the session is new, [Logout] saves nothing,
    leaves the world as the fetch left it and enters the success
    continuation; when the session is not new and the save of the expired
    session succeeds, the success continuation is entered after the save.
    The continuation receives the request as the fetch left it. *)
Theorem Logout_success_continuation {W : Type} (env : Collaborators W)
    (auth : Authentication W) (r : Request) (w w1 : W)
    (s : Session) (err : option error) :
  sessionStore auth <> None ->
  store_Get env (sessionStore auth) r "session" w = ((s, err), w1) ->
  match err with
  | Some e =>
    Logout env auth r w =
      ([EvSessionGet s (Some e);
        EvHttpError (Error e) StatusInternalServerError], w1, Done tt)
  | None =>
    (IsNew s = true ->
       Logout env auth r w =
         ([EvSessionGet s None;
           EvOnSuccess (store_Get_request env (sessionStore auth) r "session" w)],
          w1, Done tt)) /\
    (IsNew s = false ->
       forall w2,
         store_Save env (sessionStore auth)
                    (store_Get_request env (sessionStore auth) r "session" w)
                    (set_MaxAge s (-1)) w1 = (None, w2) ->
         Logout env auth r w =
           ([EvSessionGet s None; EvSessionSave (set_MaxAge s (-1)) None;
             EvOnSuccess (store_Get_request env (sessionStore auth) r "session" w)],
            w2, Done tt))
  end.
Proof.
  intros HS HG. unfold Logout, request_after_Get. unfold_M.
  destruct (sessionStore auth) as [store|]; [|contradiction].
  rewrite HG. destruct err as [e|]; simpl; [reflexivity|]. split.
  - intros ->. reflexivity.
  - intros -> w2 HSave. simpl. rewrite HSave. reflexivity.
Qed.

Lemma Logout_success_continuation_witness :
  (IsNew Reference.fresh_session = true ->
     Logout Examples.env Examples.auth (Reference.request "")
            Reference.empty_world =
       ([EvSessionGet Reference.fresh_session None;
         EvOnSuccess (store_Get_request Examples.env (sessionStore Examples.auth)
                        (Reference.request "") "session" Reference.empty_world)],
        Reference.empty_world, Done tt)) /\
  (IsNew Reference.fresh_session = false ->
     forall w2,
       store_Save Examples.env (sessionStore Examples.auth)
         (store_Get_request Examples.env (sessionStore Examples.auth)
            (Reference.request "") "session" Reference.empty_world)
         (set_MaxAge Reference.fresh_session (-1)) Reference.empty_world
         = (None, w2) ->
       Logout Examples.env Examples.auth (Reference.request "")
              Reference.empty_world =
         ([EvSessionGet Reference.fresh_session None;
           EvSessionSave (set_MaxAge Reference.fresh_session (-1)) None;
           EvOnSuccess (store_Get_request Examples.env (sessionStore Examples.auth)
                          (Reference.request "") "session" Reference.empty_world)],
          w2, Done tt)).
Proof.
  apply (Logout_success_continuation Examples.env Examples.auth
           (Reference.request "") Reference.empty_world Reference.empty_world
           Reference.fresh_session None).
  - discriminate.
  - reflexivity.
Defined.

(** The fetch returns a new session and an error: [Logout] writes status
    500 and enters no continuation, although the session is new. *)
Lemma Logout_new_session_fetch_error :
  IsNew (store_Get Examples.env_stale_cookie (sessionStore Examples.auth)
           (Reference.request "") "session" Reference.empty_world).1.1 = true /\
  Logout Examples.env_stale_cookie Examples.auth (Reference.request "")
         Reference.empty_world =
    ([EvSessionGet Reference.fresh_session
        (Some (errors_New "securecookie: the value is not valid"));
      EvHttpError "securecookie: the value is not valid"
                  StatusInternalServerError],
     Reference.empty_world, Done tt) /\
  ~ (exists r', EvOnSuccess r' ∈
        trace (Logout Examples.env_stale_cookie Examples.auth
                      (Reference.request "") Reference.empty_world)).
Proof.
  split; [reflexivity|]. split; [reflexivity|].
  intros [r' H]. apply list_elem_of_In in H. vm_compute in H.
  destruct H as [H|[H|[]]]; discriminate H.
Qed.

(** ** The shape of a [Login] run *)

Section LoginRuns.
Context {W : Type} (env : Collaborators W).
Variables (auth : Authentication W) (r : Request).

(** Equations of the loop. *)
Lemma Login_loop_nil (dbUser : option User) (err : option error) (i : nat) (w : W) :
  Login_loop env auth r dbUser err i [] w =
    ([EvLog LDebug "login failed: no authenticator applied" [];
      EvOnFailure r err], w, Done tt).
Proof. reflexivity. Qed.

Lemma Login_loop_refuse (dbUser : option User) (err : option error) (i : nat)
    (a : Authenticator W) (rest : list (Authenticator W)) (w w1 : W) :
  CanLogin (methods a) dbUser r w = (false, w1) ->
  trace (Login_loop env auth r dbUser err i (a :: rest) w) =
    EvCanLogin i (kind a) false ::
    trace (Login_loop env auth r dbUser err (S i) rest w1) /\
  final (Login_loop env auth r dbUser err i (a :: rest) w) =
    final (Login_loop env auth r dbUser err (S i) rest w1).
Proof.
  intros HC. simpl. unfold_M. rewrite HC. simpl.
  destruct (Login_loop env auth r dbUser err (S i) rest w1) as [[t w2] o].
  split; reflexivity.
Qed.

Lemma Login_loop_fail (dbUser : option User) (err : option error) (i : nat)
    (a : Authenticator W) (rest : list (Authenticator W)) (w w1 w2 : W)
    (user : option User) (e : error) :
  CanLogin (methods a) dbUser r w = (true, w1) ->
  Login_ (methods a) dbUser r w1 = ((user, Some e), w2) ->
  Login_loop env auth r dbUser err i (a :: rest) w =
    ([EvCanLogin i (kind a) true; EvLogin i (kind a) user (Some e);
      EvLog LWarn "user login failed: %s" [AString (Error e)];
      EvOnFailure r (Some e)], w2, Done tt).
Proof.
  intros HC HL. simpl. unfold_M. rewrite HC. simpl. rewrite HL. reflexivity.
Qed.

Lemma Login_loop_commit (dbUser : option User) (err : option error) (i : nat)
    (a : Authenticator W) (rest : list (Authenticator W)) (w w1 w2 : W)
    (user : option User) :
  CanLogin (methods a) dbUser r w = (true, w1) ->
  Login_ (methods a) dbUser r w1 = ((user, None), w2) ->
  trace (Login_loop env auth r dbUser err i (a :: rest) w) =
    EvCanLogin i (kind a) true :: EvLogin i (kind a) user None ::
    trace (Login_establish env auth r dbUser user w2).
Proof.
  intros HC HL. simpl. unfold_M. rewrite HC. simpl. rewrite HL. simpl.
  destruct (Login_establish env auth r dbUser user w2) as [[t w3] o].
  reflexivity.
Qed.


(** A run of the session handling that enters the success continuation:
    its events, and the world it leaves, which is the world after the
    save when a candidate existed and the world after [AddUser] ran on
    it when none did. *)
Lemma Login_establish_success (dbUser user : option User) (w : W) (r' : Request) :
  EvOnSuccess r' ∈ trace (Login_establish env auth r dbUser user w) ->
  exists u s0 w1 w2,
    user = Some u /\
    r' = WithContext r (WithValue (Ctx r) ContextUserKey (AUser (Some u))) /\
    new_sessions (trace (Login_establish env auth r dbUser user w)) = [s0] /\
    saved_sessions (trace (Login_establish env auth r dbUser user w))
      = [Login_session auth s0 u] /\
    successes (trace (Login_establish env auth r dbUser user w)) = [r'] /\
    added_users (trace (Login_establish env auth r dbUser user w))
      = match dbUser with None => [u] | Some _ => [] end /\
    store_New env (sessionStore auth) r "session" w = ((s0, None), w1) /\
    store_Save env (sessionStore auth) r (Login_session auth s0 u) w1 = (None, w2) /\
    final (Login_establish env auth r dbUser user w)
      = match dbUser with None => (db_AddUser env u w2).2 | Some _ => w2 end.
Proof.
  unfold Login_establish, Login_session, Login_values. unfold_M.
  destruct (sessionStore auth) as [store|]; [|intros H; in_trace H].
  destruct (store_New env _ r "session" w) as [[s0 [e|]] w1] eqn:HN;
    simpl; [intros H; in_trace H|].
  destruct user as [u|]; simpl; [|intros H; in_trace H].
  destruct (store_Save env _ r _ w1) as [[e|] w2] eqn:HS;
    simpl; [intros H; in_trace H|].
  destruct dbUser as [c|]; simpl.
  - intros H. in_trace H. injection H as ->.
    exists u, s0, w1, w2. repeat split. exact HS.
  - destruct (db_AddUser env u w2) as [[e|] w3] eqn:HA; simpl;
      intros H; in_trace H; injection H as ->;
      exists u, s0, w1, w2; repeat split; try exact HS;
      rewrite HA; reflexivity.
Qed.

(** The part of [Login] before the loop. *)
Lemma Login_candidate_run (w : W) :
  exists pre err w',
    Login_candidate env r w = (pre, w', Done (Login_dbUser env r w, err)) /\
    Forall (fun e => is_selection_event e = true) pre /\
    authenticator_calls pre = [] /\
    (FormValue r "username" = "" ->
       pre = [] /\ w' = w /\ err = Some (errors_New "no authenticator applied")).
Proof.
  unfold Login_candidate, Login_dbUser.
  destruct (String.eqb (FormValue r "username") "") eqn:E.
  - exists [], (Some (errors_New "no authenticator applied")), w.
    repeat split; constructor.
  - unfold_M.
    destruct (db_GetUser env (FormValue r "username") w) as [[u [e|]] w'];
      simpl; [destruct (is_ErrNoRows e)|]; simpl;
      eexists _, _, _; (split; [reflexivity|]);
      (split; [repeat constructor|]);
      (split; [reflexivity|]);
      intros Hu; apply String.eqb_neq in E; contradiction.
Qed.


End LoginRuns.

(** ** Order and exclusiveness of the authenticator chain *)

Section LoginOrder.
Context {W : Type} (env : Collaborators W).
Variables (auth : Authentication W) (r : Request).



End LoginOrder.

(** The directory authenticator refuses, the local one accepts. *)
Lemma Login_order_sample :
  authenticator_calls
    (trace (Login Examples.env Examples.auth (Reference.request "")
                  Reference.empty_world)) =
    [EvCanLogin 0 LdapAuthenticator false;
     EvCanLogin 1 LocalAuthenticator true;
     EvLogin 1 LocalAuthenticator (Some Reference.alice) None].
Proof. vm_compute. reflexivity. Qed.

(** ** The session lifetime in seconds *)

(** The binary64 conversion is exact on integers below [2^53], so a
    lifetime of a whole number of seconds yields that number. *)

Lemma digits2_iter_xO (p k : positive) :
  digits2_pos (Pos.iter xO p k) = (digits2_pos p + k)%positive.
Proof.
  induction k as [|k IH] using Pos.peano_ind.
  - simpl. lia.
  - rewrite Pos.iter_succ. simpl. rewrite IH. lia.
Qed.

Lemma Zpos_iter_xO (p k : positive) :
  Zpos (Pos.iter xO p k) = Zpos p * 2 ^ Zpos k.
Proof.
  induction k as [|k IH] using Pos.peano_ind.
  - simpl. lia.
  - rewrite Pos.iter_succ, Pos2Z.inj_xO, IH, Pos2Z.inj_succ, Z.pow_succ_r by lia.
    lia.
Qed.

Lemma shr_fexp_canonical (m : positive) (e : Z) :
  fexp prec64 emax64 (Zpos (digits2_pos m) + e) = e ->
  shr_fexp prec64 emax64 (Zpos m) e loc_Exact =
    ({| shr_m := Zpos m; shr_r := false; shr_s := false |}, e).
Proof.
  intros H. unfold shr_fexp. unfold Zdigits2. rewrite H, Z.sub_diag.
  reflexivity.
Qed.

Lemma binary_round_aux_canonical (s : bool) (m : positive) (e : Z) :
  fexp prec64 emax64 (Zpos (digits2_pos m) + e) = e ->
  e <= 971 ->
  binary_round_aux prec64 emax64 s (Zpos m) e loc_Exact = S754_finite s m e.
Proof.
  intros H He. unfold binary_round_aux.
  rewrite (shr_fexp_canonical m e H). cbn [shr_m loc_of_shr_record round_nearest_even].
  rewrite (shr_fexp_canonical m e H). cbn [shr_m].
  replace (e <=? emax64 - prec64) with true; [reflexivity|].
  symmetry. apply Z.leb_le. unfold emax64, prec64. lia.
Qed.

Lemma int_of_binary_round (s : bool) (p : positive) :
  Zpos (digits2_pos p) <= 53 ->
  int_of_float64 (binary_round prec64 emax64 s p 0) =
    if s then Zneg p else Zpos p.
Proof.
  intros Hd. unfold binary_round.
  assert (fexp prec64 emax64 (Zpos (digits2_pos p) + 0) = Zpos (digits2_pos p) - 53) as ->.
  { unfold fexp, emin, prec64, emax64. lia. }
  unfold shl_align. rewrite Z.sub_0_r.
  destruct (Zpos (digits2_pos p) - 53) as [|k|k] eqn:E; [|lia|].
  - rewrite binary_round_aux_canonical.
    + simpl. destruct s; reflexivity.
    + unfold fexp, emin, prec64, emax64. lia.
    + lia.
  - rewrite binary_round_aux_canonical.
    + unfold int_of_float64.
      rewrite Z.shiftr_div_pow2 by lia.
      rewrite Zpos_iter_xO, Z.div_mul by (apply Z.pow_nonzero; lia).
      destruct s; reflexivity.
    + rewrite digits2_iter_xO. unfold fexp, emin, prec64, emax64. lia.
    + lia.
Qed.

Lemma digits2_pos_bound (p : positive) (n : Z) :
  0 <= n -> Zpos p < 2 ^ n -> Zpos (digits2_pos p) <= n.
Proof.
  revert n. induction p as [p IH|p IH|]; intros n Hn Hp; simpl.
  - destruct (Z.eq_dec n 0) as [->|]; [simpl in Hp; lia|].
    replace n with (Z.succ (n - 1)) in Hp by lia.
    rewrite Z.pow_succ_r in Hp by lia.
    specialize (IH (n - 1)). lia.
  - destruct (Z.eq_dec n 0) as [->|]; [simpl in Hp; lia|].
    replace n with (Z.succ (n - 1)) in Hp by lia.
    rewrite Z.pow_succ_r in Hp by lia.
    specialize (IH (n - 1)). lia.
  - destruct (Z.eq_dec n 0) as [->|]; [simpl in Hp; lia|]. lia.
Qed.

Lemma int_of_float64_of_Z (n : Z) :
  Z.abs n < 2 ^ 53 -> int_of_float64 (float64_of_Z n) = n.
Proof.
  intros H. unfold float64_of_Z, binary_normalize.
  destruct n as [|p|p]; [reflexivity| |];
    apply int_of_binary_round; apply digits2_pos_bound; lia.
Qed.

Lemma int_of_SFadd_zero (x : spec_float) :
  int_of_float64 (SFadd prec64 emax64 x (S754_zero false)) = int_of_float64 x.
Proof. destruct x as [[|]| | |]; reflexivity. Qed.

Lemma Seconds_whole (n : Z) :
  Z.abs n < 2 ^ 53 ->
  int_of_float64 (Seconds (n * Second)) = n.
Proof.
  intros H. unfold Seconds.
  rewrite Z.quot_mul, Z.rem_mul by (unfold Second; lia).
  change (SFdiv prec64 emax64 (float64_of_Z 0) (float64_of_Z 1000000000))
    with (S754_zero false).
  rewrite int_of_SFadd_zero. apply int_of_float64_of_Z, H.
Qed.

Lemma SessionMaxAge_seconds_whole (n : Z) :
  Z.abs n < 2 ^ 53 -> SessionMaxAge_seconds (n * Second) = n.
Proof. apply Seconds_whole. Qed.

(** A fraction of a second is dropped, except where the binary64 sum
    rounds up to the next integer. *)
Lemma SessionMaxAge_seconds_samples :
  SessionMaxAge_seconds 1500000000 = 1 /\
  SessionMaxAge_seconds 500000000 = 0 /\
  SessionMaxAge_seconds (-1500000000) = -1 /\
  SessionMaxAge_seconds (16777216 * Second + 999999999) = 16777217.
Proof. repeat split; vm_compute; reflexivity. Qed.

(** ** Successful logins *)

Section LoginSuccess.
Context {W : Type} (env : Collaborators W).
Variables (auth : Authentication W) (r : Request).

(** Selection events are none of the events the views below collect. *)
Lemma selection_views (pre : list Event) :
  Forall (fun e => is_selection_event e = true) pre ->
  new_sessions pre = [] /\ saved_sessions pre = [] /\
  successes pre = [] /\ added_users pre = [] /\
  forall r', EvOnSuccess r' ∉ pre.
Proof.
  induction 1 as [|e pre He _ (IH1 & IH2 & IH3 & IH4 & IH5)].
  - repeat split. intros r' H. inversion H.
  - destruct e; try discriminate He;
      (split; [exact IH1|]); (split; [exact IH2|]);
      (split; [exact IH3|]); (split; [exact IH4|]);
      intros r' H; apply elem_of_cons in H as [H|H];
      try discriminate H; exact (IH5 r' H).
Qed.

Lemma Login_loop_commit_final (dbUser : option User) (err : option error)
    (i : nat) (a : Authenticator W) (rest : list (Authenticator W))
    (w w1 w2 : W) (user : option User) :
  CanLogin (methods a) dbUser r w = (true, w1) ->
  Login_ (methods a) dbUser r w1 = ((user, None), w2) ->
  final (Login_loop env auth r dbUser err i (a :: rest) w) =
    final (Login_establish env auth r dbUser user w2).
Proof.
  intros HC HL. simpl. unfold_M. rewrite HC. simpl. rewrite HL. simpl.
  destruct (Login_establish env auth r dbUser user w2) as [[t w3] o].
  reflexivity.
Qed.

Lemma Login_loop_success (dbUser : option User) (err : option error)
    (rest : list (Authenticator W)) :
  forall (i : nat) (w : W) (r' : Request),
    EvOnSuccess r' ∈ trace (Login_loop env auth r dbUser err i rest w) ->
    exists pre user w',
      trace (Login_loop env auth r dbUser err i rest w) =
        pre ++ trace (Login_establish env auth r dbUser user w') /\
      final (Login_loop env auth r dbUser err i rest w) =
        final (Login_establish env auth r dbUser user w') /\
      Forall (fun e => is_selection_event e = true) pre /\
      EvOnSuccess r' ∈ trace (Login_establish env auth r dbUser user w').
Proof.
  induction rest as [|a rest IH]; intros i w r'.
  - rewrite Login_loop_nil. simpl. intros H. in_trace H.
  - destruct (CanLogin (methods a) dbUser r w) as [[|] w1] eqn:HC.
    + destruct (Login_ (methods a) dbUser r w1) as [[user [e|]] w2] eqn:HL.
      * rewrite (Login_loop_fail env auth r _ _ _ _ _ _ _ _ _ _ HC HL).
        simpl. intros H. in_trace H.
      * rewrite (Login_loop_commit env auth r _ _ _ _ _ _ _ _ _ HC HL).
        rewrite (Login_loop_commit_final _ _ _ _ _ _ _ _ _ HC HL).
        intros H. in_trace H.
        exists [EvCanLogin i (kind a) true; EvLogin i (kind a) user None], user, w2.
        split; [reflexivity|]. split; [reflexivity|].
        split; [repeat constructor|exact H].
    + destruct (Login_loop_refuse env auth r dbUser err i a rest w w1 HC) as [-> ->].
      intros H. in_trace H.
      destruct (IH (S i) w1 r' H) as (pre & user & w' & -> & -> & HF & Hin).
      exists (EvCanLogin i (kind a) false :: pre), user, w'.
      split; [reflexivity|]. split; [reflexivity|].
      split; [constructor; [reflexivity|exact HF]|exact Hin].
Qed.

(** [Login] is the candidate lookup followed by the loop. *)
Lemma Login_run (w : W) :
  exists pre err w',
    trace (Login env auth r w) =
      pre ++ trace (Login_loop env auth r (Login_dbUser env r w) err 0
                               (authenticators auth) w') /\
    final (Login env auth r w) =
      final (Login_loop env auth r (Login_dbUser env r w) err 0
                        (authenticators auth) w') /\
    Forall (fun e => is_selection_event e = true) pre.
Proof.
  destruct (Login_candidate_run env r w) as (pre & err & w' & HC & HF & _).
  exists pre, err, w'. unfold Login. unfold mbind, M_bind. rewrite HC.
  destruct (Login_loop env auth r (Login_dbUser env r w) err 0
                       (authenticators auth) w') as [[t w2] o].
  repeat split. exact HF.
Qed.

(** A [Login] run that enters the success continuation: the request it
    hands on, the session it created and saved, the users it wrote, and
    the world it leaves. *)
Lemma Login_success (w : W) (r' : Request) :
  EvOnSuccess r' ∈ trace (Login env auth r w) ->
  exists u s0 w1 w2,
    r' = WithContext r (WithValue (Ctx r) ContextUserKey (AUser (Some u))) /\
    new_sessions (trace (Login env auth r w)) = [s0] /\
    saved_sessions (trace (Login env auth r w)) = [Login_session auth s0 u] /\
    successes (trace (Login env auth r w)) = [r'] /\
    added_users (trace (Login env auth r w)) =
      match Login_dbUser env r w with None => [u] | Some _ => [] end /\
    store_Save env (sessionStore auth) r (Login_session auth s0 u) w1 = (None, w2) /\
    final (Login env auth r w) =
      match Login_dbUser env r w with
      | None => (db_AddUser env u w2).2
      | Some _ => w2
      end.
Proof.
  destruct (Login_run w) as (pre0 & err & w0 & -> & -> & HF0).
  intros H. apply elem_of_app in H as [H|H].
  { destruct (selection_views _ HF0) as (_ & _ & _ & _ & Hno).
    destruct (Hno r' H). }
  destruct (Login_loop_success _ _ _ _ _ _ H)
    as (pre & user & w' & -> & -> & HF & Hin).
  destruct (Login_establish_success env auth r _ _ _ _ Hin)
    as (u & s0 & w1 & w2 & _ & Hr & Hn & Hs & Hsucc & Hadd & _ & HSave & Hfin).
  destruct (selection_views _ HF0) as (A1 & A2 & A3 & A4 & _).
  destruct (selection_views _ HF) as (B1 & B2 & B3 & B4 & _).
  exists u, s0, w1, w2. split; [exact Hr|].
  unfold new_sessions, saved_sessions, successes, added_users in *.
  rewrite !omap_app, A1, A2, A3, A4, B1, B2, B3, B4, Hn, Hs, Hsucc, Hadd.
  repeat split; assumption.
Qed.

End LoginSuccess.

(** C7, as the code has it: in a [Login] run that enters the success
    continuation, exactly one session is created and saved; with
    [SessionMaxAge] zero its options are those the store gave the new
    session, otherwise its [MaxAge] is [int(SessionMaxAge.Seconds())],
    the binary64 number of seconds converted to an integer, which for a
    lifetime of [n] whole seconds is [n]. *)
Theorem Login_session_MaxAge {W : Type} (env : Collaborators W)
    (auth : Authentication W) (r : Request) (w : W) (r' : Request) :
  EvOnSuccess r' ∈ trace (Login env auth r w) ->
  exists s0 s,
    new_sessions (trace (Login env auth r w)) = [s0] /\
    saved_sessions (trace (Login env auth r w)) = [s] /\
    (SessionMaxAge auth = 0 -> Options_ s = Options_ s0) /\
    (SessionMaxAge auth <> 0 ->
       MaxAge (Options_ s) = SessionMaxAge_seconds (SessionMaxAge auth)) /\
    (forall n, SessionMaxAge auth = n * Second -> n <> 0 -> Z.abs n < 2 ^ 53 ->
       MaxAge (Options_ s) = n).
Proof.
  intros H.
  destruct (Login_success env auth r w r' H) as (u & s0 & _ & _ & _ & Hn & Hs & _).
  exists s0, (Login_session auth s0 u).
  split; [exact Hn|]. split; [exact Hs|].
  unfold Login_session, Login_values, set_Value, set_MaxAge.
  split; [|split].
  - intros ->. reflexivity.
  - intros Hne. apply Z.eqb_neq in Hne. rewrite Hne. reflexivity.
  - intros n Hd Hn0 Hb.
    assert ((SessionMaxAge auth =? 0) = false) as ->.
    { apply Z.eqb_neq. rewrite Hd. unfold Second. lia. }
    simpl. rewrite Hd. apply Seconds_whole, Hb.
Qed.

(** A lifetime of one hour gives [MaxAge] 3600. *)
Lemma Login_session_MaxAge_witness :
  exists s0 s,
    new_sessions (trace (Login Examples.env Examples.auth_1h
                               (Reference.request "") Reference.empty_world)) = [s0] /\
    saved_sessions (trace (Login Examples.env Examples.auth_1h
                                 (Reference.request "") Reference.empty_world)) = [s] /\
    (SessionMaxAge Examples.auth_1h = 0 -> Options_ s = Options_ s0) /\
    (SessionMaxAge Examples.auth_1h <> 0 ->
       MaxAge (Options_ s) = SessionMaxAge_seconds (SessionMaxAge Examples.auth_1h)) /\
    (forall n, SessionMaxAge Examples.auth_1h = n * Second -> n <> 0 ->
       Z.abs n < 2 ^ 53 -> MaxAge (Options_ s) = n).
Proof.
  apply (Login_session_MaxAge Examples.env Examples.auth_1h
           (Reference.request "") Reference.empty_world Examples.served_alice).
  apply list_elem_of_In. vm_compute. do 7 right. left. reflexivity.
Defined.

(** A non-zero lifetime that is not a whole number of seconds is not
    kept exactly: half a second gives [MaxAge] 0, and
    16777216.999999999 seconds give 16777217, more than the lifetime. *)
Lemma Login_session_MaxAge_not_exact :
  (SessionMaxAge Examples.auth_500ms <> 0 /\
   map (fun s => MaxAge (Options_ s))
       (saved_sessions (trace (Login Examples.env Examples.auth_500ms
                                     (Reference.request "") Reference.empty_world)))
     = [0] /\
   0 * Second <> SessionMaxAge Examples.auth_500ms) /\
  (map (fun s => MaxAge (Options_ s))
       (saved_sessions (trace (Login Examples.env Examples.auth_194d
                                     (Reference.request "") Reference.empty_world)))
     = [16777217] /\
   SessionMaxAge Examples.auth_194d < 16777217 * Second).
Proof.
  split; [split; [discriminate|split; [vm_compute; reflexivity|discriminate]]|].
  split; [vm_compute; reflexivity|]. vm_compute. reflexivity.
Qed.

(** C8: in a [Login] run that enters the success continuation, one
    session was saved with success, leaving a world [w2].  When no
    candidate was resolved before the authenticator ran, [AddUser] is
    called exactly once, with the user handed to the continuation, and
    the run leaves the world [AddUser] made of [w2]; when a candidate was
    resolved, [AddUser] is not called and the run leaves [w2] itself. *)
Theorem Login_registers_first_time_user {W : Type} (env : Collaborators W)
    (auth : Authentication W) (r : Request) (w : W) (r' : Request) :
  EvOnSuccess r' ∈ trace (Login env auth r w) ->
  exists u s w1 w2,
    GetUser (Ctx r') = Done (Some u) /\
    saved_sessions (trace (Login env auth r w)) = [s] /\
    store_Save env (sessionStore auth) r s w1 = (None, w2) /\
    (Login_dbUser env r w = None ->
       added_users (trace (Login env auth r w)) = [u] /\
       final (Login env auth r w) = (db_AddUser env u w2).2) /\
    (forall c, Login_dbUser env r w = Some c ->
       added_users (trace (Login env auth r w)) = [] /\
       final (Login env auth r w) = w2).
Proof.
  intros H.
  destruct (Login_success env auth r w r' H)
    as (u & s0 & w1 & w2 & -> & _ & Hs & _ & Ha & HSave & Hfin).
  exists u, (Login_session auth s0 u), w1, w2.
  split; [reflexivity|]. split; [exact Hs|]. split; [exact HSave|].
  rewrite Ha, Hfin. split.
  - intros ->. split; reflexivity.
  - intros c ->. split; reflexivity.
Qed.

Lemma Login_registers_first_time_user_witness :
  exists u s w1 w2,
    GetUser (Ctx Examples.served_alice) = Done (Some u) /\
    saved_sessions (trace (Login Examples.env Examples.auth
                                 (Reference.request "") Reference.empty_world)) = [s] /\
    store_Save Examples.env (sessionStore Examples.auth) (Reference.request "")
               s w1 = (None, w2) /\
    (Login_dbUser Examples.env (Reference.request "") Reference.empty_world = None ->
       added_users (trace (Login Examples.env Examples.auth
                                 (Reference.request "") Reference.empty_world)) = [u] /\
       final (Login Examples.env Examples.auth
                    (Reference.request "") Reference.empty_world)
         = (db_AddUser Examples.env u w2).2) /\
    (forall c,
       Login_dbUser Examples.env (Reference.request "") Reference.empty_world = Some c ->
       added_users (trace (Login Examples.env Examples.auth
                                 (Reference.request "") Reference.empty_world)) = [] /\
       final (Login Examples.env Examples.auth
                    (Reference.request "") Reference.empty_world) = w2).
Proof.
  apply (Login_registers_first_time_user Examples.env Examples.auth
           (Reference.request "") Reference.empty_world Examples.served_alice).
  apply list_elem_of_In. vm_compute. do 7 right. left. reflexivity.
Defined.

(** On the reference user table: a first login stores the user, a login
    of a known user leaves the table as it was. *)
Lemma Login_registers_sample :
  Reference.users (final (Login Examples.env Examples.auth (Reference.request "")
                      Reference.empty_world)) !! "alice" = Some Reference.alice /\
  Reference.users Reference.empty_world !! "alice" = None /\
  Reference.users (final (Login Examples.env Examples.auth (Reference.request "alice")
                      Reference.alice_world)) = Reference.users Reference.alice_world /\
  added_users (trace (Login Examples.env Examples.auth (Reference.request "alice")
                            Reference.alice_world)) = [].
Proof. repeat split; vm_compute; reflexivity. Qed.

(** * Further properties of the code *)

(** ** [HasProject] and [GetUser] *)

(** X1: [HasProject] answers [true] exactly for the members of
    [Projects]. *)
Theorem HasProject_iff (u : User) (project : string) :
  HasProject u project = true <-> project ∈ Projects u.
Proof.
  unfold HasProject. induction (Projects u) as [|p ps IH]; simpl.
  - split; [discriminate|]. intros H. inversion H.
  - destruct (String.eqb p project) eqn:E.
    + apply String.eqb_eq in E. subst. split; [|reflexivity].
      intros _. apply elem_of_cons. left. reflexivity.
    + apply String.eqb_neq in E. rewrite IH, elem_of_cons.
      split; [auto|]. intros [->|H]; [contradiction|exact H].
Qed.

(** X2: [GetUser] panics exactly when the value under [ContextUserKey]
    is neither nil nor a [User] pointer; a nil [User] pointer stored
    under the key is returned as nil. *)
Theorem GetUser_panics_iff (ctx : Context) :
  ((exists msg, GetUser ctx = Panic msg) <->
   (Value ctx ContextUserKey <> ANil /\
    forall p, Value ctx ContextUserKey <> AUser p)) /\
  GetUser (WithValue ctx ContextUserKey (AUser None)) = Done None.
Proof.
  split.
  - unfold GetUser. destruct (Value ctx ContextUserKey) eqn:E; split.
    all: try (intros [msg H]; discriminate H).
    all: try (intros [H1 H2]; try (destruct (H1 eq_refl)); destruct (H2 _ eq_refl)).
    all: try (intros _; split; [discriminate|intros p; discriminate]).
    all: intros _; eexists; reflexivity.
  - unfold GetUser. rewrite Value_WithValue. reflexivity.
Qed.

(** ** [AuthViaSession] and [Auth] *)

Lemma Value_WithValue_ne (ctx : Context) (k k' : CtxKey) (v : Any) :
  k' <> k -> Value (WithValue ctx k v) k' = Value ctx k'.
Proof.
  intros H. unfold WithValue. simpl.
  destruct (CtxKey_eqb k k') eqn:E; [|reflexivity].
  apply CtxKey_eqb_eq in E. congruence.
Qed.

(** The request handed to [onsuccess] differs from the incoming one in
    the value under [ContextUserKey] only. *)
Lemma with_user_frame (r : Request) (u : User) :
  GetUser (Ctx (with_user r u)) = Done (Some u) /\
  Form (with_user r u) = Form r /\
  Header (with_user r u) = Header r /\
  forall k, k <> ContextUserKey ->
    Value (Ctx (with_user r u)) k = Value (Ctx r) k.
Proof.
  unfold with_user, WithContext, GetUser. simpl Ctx.
  rewrite Value_WithValue. repeat split.
  intros k Hk. apply Value_WithValue_ne, Hk.
Qed.

(** X3: on a nil store [AuthViaSession] panics at once.  On a store it
    returns, never a user together with an error: when the fetch reports
    an error, that error is returned and the session is not looked at; a
    new session gives neither user nor error.  The world is the one the
    fetch left. *)
Theorem AuthViaSession_user_or_error {W : Type} (env : Collaborators W)
    (auth : Authentication W) (r : Request) (w : W) :
  match sessionStore auth with
  | None =>
    AuthViaSession env auth r w =
      ([], w, Panic "invalid memory address or nil pointer dereference")
  | Some _ =>
    exists u e,
      outcome (AuthViaSession env auth r w) = Done (u, e) /\
      (u = None \/ e = None) /\
      final (AuthViaSession env auth r w) =
        (store_Get env (sessionStore auth) r "session" w).2 /\
      match (store_Get env (sessionStore auth) r "session" w).1 with
      | (_, Some ge) => u = None /\ e = Some ge
      | (s, None) =>
        if IsNew s then u = None /\ e = None
        else (u, e) = AuthViaSession_decode s
      end
  end.
Proof.
  unfold AuthViaSession. unfold_M.
  destruct (sessionStore auth) as [store|]; [|reflexivity].
  destruct (store_Get env (Some store) r "session" w) as [[s [ge|]] w1];
    simpl.
  - exists None, (Some ge). repeat split. left. reflexivity.
  - destruct (IsNew s); simpl.
    + exists None, None. repeat split. left. reflexivity.
    + pose proof (AuthViaSession_decode_cases s) as D.
      destruct (Values s !! "username"); [destruct (Values s !! "projects")|];
        rewrite D; eexists _, _; repeat split; auto.
Qed.

(** X4: when the token stage yields no user and the fetched session is
    not new but lacks the key "username", or has it and lacks "projects",
    [Auth] writes status 401 with the message naming that key and enters
    no continuation. *)
Theorem Auth_missing_key {W : Type} (env : Collaborators W)
    (auth : Authentication W) (r : Request) (w w0 w1 : W)
    (je : option error) (s : Session) :
  sessionStore auth <> None ->
  AuthViaJWT env r w = ((None, je), w0) ->
  store_Get env (sessionStore auth) r "session" w0 = ((s, None), w1) ->
  IsNew s = false ->
  Values s !! "username" = None \/ Values s !! "projects" = None ->
  let msg := match Values s !! "username" with
             | None => "No key username in session"
             | Some _ => "No key projects in session"
             end in
  Auth env auth r w =
    ([EvAuthViaJWT None je; EvSessionGet s None;
      EvLog LInfo "authentication failed: %s" [AString msg];
      EvHttpError msg StatusUnauthorized], w1, Done tt).
Proof.
  intros HS HJ HG HN HK.
  unfold Auth, AuthViaSession, request_after_Get. unfold_M.
  destruct (sessionStore auth) as [store|]; [|contradiction].
  rewrite HJ. simpl. rewrite HG. simpl. rewrite HN. simpl.
  pose proof (AuthViaSession_decode_cases s) as D.
  destruct (Values s !! "username") as [n|].
  - destruct HK as [HK|HK]; [discriminate|]. rewrite HK in D. rewrite D.
    reflexivity.
  - rewrite D. reflexivity.
Qed.

Lemma Auth_missing_key_witness :
  Auth Examples.env Examples.auth (Reference.request "")
       Examples.world_empty_session =
    ([EvAuthViaJWT None None;
      EvSessionGet {| IsNew := false; Values := ∅;
                      Options_ := {| MaxAge := Reference.default_MaxAge |} |} None;
      EvLog LInfo "authentication failed: %s"
            [AString "No key username in session"];
      EvHttpError "No key username in session" StatusUnauthorized],
     Examples.world_empty_session, Done tt).
Proof.
  refine (Auth_missing_key Examples.env Examples.auth (Reference.request "")
           Examples.world_empty_session Examples.world_empty_session
           Examples.world_empty_session None
           {| IsNew := false; Values := ∅;
              Options_ := {| MaxAge := Reference.default_MaxAge |} |}
           _ eq_refl eq_refl eq_refl (or_introl eq_refl)).
  discriminate.
Defined.

(** X5: the type assertions of the decoder discard their [ok] result: a
    stored session whose "username" is not a string, or whose "projects"
    is not a string slice, is accepted, and [Auth] serves a user with the
    empty username, respectively without projects and roles. *)
Theorem Auth_untyped_values {W : Type} (env : Collaborators W)
    (auth : Authentication W) (r : Request) (w w0 w1 : W)
    (je : option error) (s : Session) (n p : Any) :
  sessionStore auth <> None ->
  AuthViaJWT env r w = ((None, je), w0) ->
  store_Get env (sessionStore auth) r "session" w0 = ((s, None), w1) ->
  IsNew s = false ->
  Values s !! "username" = Some n ->
  Values s !! "projects" = Some p ->
  exists u,
    responses (trace (Auth env auth r w)) =
      [EvOnSuccess
         (with_user (store_Get_request env (sessionStore auth) r "session" w0) u)] /\
    ((forall x, n <> AString x) -> Username u = "") /\
    ((forall l, p <> AStrings l) -> Projects u = [] /\ Roles u = []).
Proof.
  intros HS HJ HG HN Hn Hp.
  unfold Auth, AuthViaSession, Auth_finish, request_after_Get. unfold_M.
  destruct (sessionStore auth) as [store|]; [|contradiction].
  rewrite HJ. simpl. rewrite HG. simpl. rewrite HN. simpl.
  pose proof (AuthViaSession_decode_cases s) as D. rewrite Hn, Hp in D.
  rewrite D. simpl. eexists. split; [reflexivity|]. simpl. split.
  - intros H. destruct n; try reflexivity. destruct (H _ eq_refl).
  - intros H. destruct p; try (split; reflexivity). destruct (H _ eq_refl).
Qed.

Lemma Auth_untyped_values_witness :
  exists u,
    responses (trace (Auth Examples.env Examples.auth (Reference.request "")
                           Examples.world_untyped_username))
      = [EvOnSuccess
           (with_user (store_Get_request Examples.env (sessionStore Examples.auth)
                         (Reference.request "") "session"
                         Examples.world_untyped_username) u)] /\
    ((forall x, AOther 7 <> AString x) -> Username u = "") /\
    ((forall l, AStrings ["p1"] <> AStrings l) -> Projects u = [] /\ Roles u = []).
Proof.
  apply (Auth_untyped_values Examples.env Examples.auth (Reference.request "")
           Examples.world_untyped_username Examples.world_untyped_username
           Examples.world_untyped_username None
           {| IsNew := false; Values := Examples.values_untyped_username;
              Options_ := {| MaxAge := Reference.default_MaxAge |} |});
    try reflexivity.
  discriminate.
Defined.

(** X6: [Auth] consults the session store exactly when the token stage
    yields no user; a user from the token stage is served at once, also
    when that stage reports an error beside it.  On a nil store the
    session stage panics at the call. *)
Theorem Auth_token_first {W : Type} (env : Collaborators W)
    (auth : Authentication W) (r : Request) (w : W) :
  match (AuthViaJWT env r w).1.1 with
  | Some u =>
    Auth env auth r w =
      ([EvAuthViaJWT (Some u) (AuthViaJWT env r w).1.2;
        EvOnSuccess (with_user r u)], (AuthViaJWT env r w).2, Done tt)
  | None =>
    match sessionStore auth with
    | Some _ =>
      exists s e t,
        trace (Auth env auth r w) =
          EvAuthViaJWT None (AuthViaJWT env r w).1.2 :: EvSessionGet s e :: t /\
        forall s' e', EvSessionGet s' e' ∉ t
    | None =>
      Auth env auth r w =
        ([EvAuthViaJWT None (AuthViaJWT env r w).1.2], (AuthViaJWT env r w).2,
         Panic "invalid memory address or nil pointer dereference")
    end
  end.
Proof.
  run_Auth env auth r w; try reflexivity;
    eexists _, _, _; (split; [reflexivity|]);
    intros s' e' H; in_trace H.
Qed.

(** X7: an [Auth] run answers the request exactly once, as its last
    step: the success continuation, the failure continuation, or status
    401; except that on a nil store, when the token stage yields no user,
    it panics without an answer.  A user from the token stage is attached
    to the incoming request; after the session stage, the continuations
    receive the request as the fetch left it. *)
Theorem Auth_one_response {W : Type} (env : Collaborators W)
    (auth : Authentication W) (r : Request) (w : W) :
  match (AuthViaJWT env r w).1.1, sessionStore auth with
  | Some u, _ =>
    outcome (Auth env auth r w) = Done tt /\
    responses (trace (Auth env auth r w)) = [EvOnSuccess (with_user r u)] /\
    last (trace (Auth env auth r w)) = Some (EvOnSuccess (with_user r u))
  | None, None =>
    (exists msg, outcome (Auth env auth r w) = Panic msg) /\
    responses (trace (Auth env auth r w)) = []
  | None, Some _ =>
    outcome (Auth env auth r w) = Done tt /\
    exists e,
      responses (trace (Auth env auth r w)) = [e] /\
      last (trace (Auth env auth r w)) = Some e /\
      ((exists u,
          e = EvOnSuccess
                (with_user (store_Get_request env (sessionStore auth) r "session"
                              (AuthViaJWT env r w).2) u)) \/
       e = EvOnFailure
             (store_Get_request env (sessionStore auth) r "session"
                (AuthViaJWT env r w).2)
             (Some (errors_New "unauthorized (please login first)")) \/
       (exists err, e = EvHttpError (Error err) StatusUnauthorized))
  end.
Proof.
  run_Auth env auth r w; try (repeat split; reflexivity);
    try (split; [eexists; reflexivity|reflexivity]);
    (split; [reflexivity|]);
    eexists; (split; [reflexivity|]); (split; [reflexivity|]); eauto.
Qed.

(** X8: the error of the token stage is never reported.  A 401 carries
    the message of the error the session stage returned, and the failure
    continuation is entered only when the session stage returned neither
    user nor error. *)
Theorem Auth_reports_session_errors_only {W : Type} (env : Collaborators W)
    (auth : Authentication W) (r : Request) (w : W) :
  (forall msg code, EvHttpError msg code ∈ trace (Auth env auth r w) ->
     (AuthViaJWT env r w).1.1 = None /\
     exists u e,
       outcome (AuthViaSession env auth r (AuthViaJWT env r w).2) = Done (u, Some e) /\
       msg = Error e /\ code = StatusUnauthorized) /\
  (forall r' err, EvOnFailure r' err ∈ trace (Auth env auth r w) ->
     (AuthViaJWT env r w).1.1 = None /\
     outcome (AuthViaSession env auth r (AuthViaJWT env r w).2) = Done (None, None)).
Proof.
  split.
  - intros msg code. run_Auth env auth r w; intros H; in_trace H;
      injection H as -> ->; (split; [reflexivity|]);
      eexists _, _; repeat split.
  - intros r' err. run_Auth env auth r w; intros H; in_trace H;
      split; reflexivity.
Qed.

(** X9: the request [Auth] hands to the success continuation carries the
    authenticated user where [GetUser] finds it, and is otherwise the
    request the user was attached to: the incoming request for a user
    from the token stage, the request as the fetch left it for a user
    from the session stage; same form, same headers, same values under
    every other context key. *)
Theorem Auth_success_request {W : Type} (env : Collaborators W)
    (auth : Authentication W) (r : Request) (w : W) (r' : Request) :
  EvOnSuccess r' ∈ trace (Auth env auth r w) ->
  exists u r0,
    r' = with_user r0 u /\
    GetUser (Ctx r') = Done (Some u) /\
    Form r' = Form r0 /\ Header r' = Header r0 /\
    (forall k, k <> ContextUserKey -> Value (Ctx r') k = Value (Ctx r0) k) /\
    ((AuthViaJWT env r w).1.1 = Some u /\ r0 = r \/
     (AuthViaJWT env r w).1.1 = None /\
     outcome (AuthViaSession env auth r (AuthViaJWT env r w).2) = Done (Some u, None) /\
     r0 = store_Get_request env (sessionStore auth) r "session"
            (AuthViaJWT env r w).2).
Proof.
  run_Auth env auth r w; intros H; in_trace H; injection H as ->;
    eexists _, _; (split; [reflexivity|]);
    repeat split;
    try (intros k Hk; apply with_user_frame, Hk); auto.
Qed.

Lemma Auth_success_request_witness :
  exists u r0,
    with_user Examples.registered_request Examples.decoded_alice = with_user r0 u /\
    GetUser (Ctx (with_user Examples.registered_request Examples.decoded_alice))
      = Done (Some u) /\
    Form (with_user Examples.registered_request Examples.decoded_alice) = Form r0 /\
    Header (with_user Examples.registered_request Examples.decoded_alice)
      = Header r0 /\
    (forall k, k <> ContextUserKey ->
       Value (Ctx (with_user Examples.registered_request Examples.decoded_alice)) k
         = Value (Ctx r0) k) /\
    ((AuthViaJWT Examples.env (Reference.request "")
                 Examples.world_without_roles).1.1 = Some u /\
     r0 = Reference.request "" \/
     (AuthViaJWT Examples.env (Reference.request "")
                 Examples.world_without_roles).1.1 = None /\
     outcome (AuthViaSession Examples.env Examples.auth (Reference.request "")
                (AuthViaJWT Examples.env (Reference.request "")
                            Examples.world_without_roles).2)
       = Done (Some u, None) /\
     r0 = store_Get_request Examples.env (sessionStore Examples.auth)
            (Reference.request "") "session"
            (AuthViaJWT Examples.env (Reference.request "")
                        Examples.world_without_roles).2).
Proof.
  apply (Auth_success_request Examples.env Examples.auth (Reference.request "")
           Examples.world_without_roles).
  apply list_elem_of_In. vm_compute. do 2 right. left. reflexivity.
Defined.

(** The fetch attaches the registry: the request handed on by [Auth]
    after the session stage has a value under the registry key that the
    incoming request lacks. *)
Lemma Auth_success_request_sample :
  Value (Ctx (Reference.request "")) Reference.registryKey = ANil /\
  exists r',
    last (trace (Auth Examples.env Examples.auth (Reference.request "")
                      Examples.world_without_roles)) = Some (EvOnSuccess r') /\
    Value (Ctx r') Reference.registryKey = AOther 0 /\
    GetUser (Ctx r') = Done (Some Examples.decoded_alice).
Proof.
  split; [reflexivity|]. eexists. split; [vm_compute; reflexivity|].
  split; reflexivity.
Qed.

(** X10: [Auth] only reads: it creates and saves no session, writes and
    reads no user record, and calls no registry authenticator. *)
Theorem Auth_read_only {W : Type} (env : Collaborators W)
    (auth : Authentication W) (r : Request) (w : W) :
  Forall (fun e => is_write e = false) (trace (Auth env auth r w)) /\
  lookups (trace (Auth env auth r w)) = [] /\
  authenticator_calls (trace (Auth env auth r w)) = [].
Proof.
  run_Auth env auth r w; repeat split; repeat constructor.
Qed.

(** ** [Logout] *)

(** X11: the only session [Logout] ever saves is the fetched, existing
    session with [MaxAge] set to [-1] and its values untouched; it saves
    at most once. *)
Theorem Logout_saves_expired {W : Type} (env : Collaborators W)
    (auth : Authentication W) (r : Request) (w : W)
    (s : Session) (e : option error) :
  EvSessionSave s e ∈ trace (Logout env auth r w) ->
  exists s0,
    (store_Get env (sessionStore auth) r "session" w).1 = (s0, None) /\
    IsNew s0 = false /\
    s = set_MaxAge s0 (-1) /\
    MaxAge (Options_ s) = -1 /\
    Values s = Values s0 /\
    saved_sessions (trace (Logout env auth r w)) = [s].
Proof.
  run_Logout env auth r w; intros H; in_trace H; injection H as -> ->;
    eexists; repeat split; assumption.
Qed.

Lemma Logout_saves_expired_witness :
  exists s0,
    (store_Get Examples.env (sessionStore Examples.auth) (Reference.request "")
               "session" Examples.world_logged_in).1 = (s0, None) /\
    IsNew s0 = false /\
    set_MaxAge Examples.session_logged_in (-1) = set_MaxAge s0 (-1) /\
    MaxAge (Options_ (set_MaxAge Examples.session_logged_in (-1))) = -1 /\
    Values (set_MaxAge Examples.session_logged_in (-1)) = Values s0 /\
    saved_sessions (trace (Logout Examples.env Examples.auth (Reference.request "")
                                  Examples.world_logged_in))
      = [set_MaxAge Examples.session_logged_in (-1)].
Proof.
  apply (Logout_saves_expired Examples.env Examples.auth (Reference.request "")
           Examples.world_logged_in _ None).
  apply list_elem_of_In. vm_compute. right. left. reflexivity.
Defined.

(** X12: on a nil store [Logout] panics at once, without an answer.  On
    a store every run returns and answers exactly once, as its last step:
    it enters the success continuation, with the request as the fetch
    left it, exactly when the fetch reported no error and no save failed;
    otherwise it writes status 500 with the message of the fetch or save
    error.  [Logout] never reads or writes the user table and creates no
    session. *)
Theorem Logout_one_response {W : Type} (env : Collaborators W)
    (auth : Authentication W) (r : Request) (w : W) :
  match sessionStore auth with
  | None =>
    Logout env auth r w =
      ([], w, Panic "invalid memory address or nil pointer dereference")
  | Some _ =>
    outcome (Logout env auth r w) = Done tt /\
    exists e,
      responses (trace (Logout env auth r w)) = [e] /\
      last (trace (Logout env auth r w)) = Some e /\
      (e = EvOnSuccess (store_Get_request env (sessionStore auth) r "session" w) /\
       (store_Get env (sessionStore auth) r "session" w).1.2 = None /\
       (forall s err, EvSessionSave s err ∈ trace (Logout env auth r w) ->
          err = None) \/
       exists err,
         e = EvHttpError (Error err) StatusInternalServerError /\
         ((store_Get env (sessionStore auth) r "session" w).1.2 = Some err \/
          exists s, EvSessionSave s (Some err) ∈ trace (Logout env auth r w)))
  end /\
  lookups (trace (Logout env auth r w)) = [] /\
  added_users (trace (Logout env auth r w)) = [] /\
  new_sessions (trace (Logout env auth r w)) = [].
Proof.
  run_Logout env auth r w; (split; [|repeat split]); try reflexivity;
    (split; [reflexivity|]);
    eexists; (split; [reflexivity|]); (split; [reflexivity|]).
  - right. eexists. split; [reflexivity|]. left. reflexivity.
  - left. repeat split. intros s' err H. in_trace H.
  - right. eexists. split; [reflexivity|]. right. eexists.
    apply elem_of_cons. right. apply elem_of_cons. left. reflexivity.
  - left. repeat split. intros s' err H. in_trace H. injection H as _ <-.
    reflexivity.
Qed.

(** ** How a [Login] run ends *)

Section LoginShape.
Context {W : Type} (env : Collaborators W).
Variables (auth : Authentication W) (r : Request).

Lemma Login_establish_end (dbUser user : option User) (err : option error) (w : W) :
  LoginEnd auth r dbUser err (Some (user, None))
    (trace (Login_establish env auth r dbUser user w))
    (outcome (Login_establish env auth r dbUser user w)).
Proof.
  unfold Login_establish. unfold_M.
  destruct (sessionStore auth) as [store|] eqn:Hstore;
    [|apply end_nil_store; exact Hstore].
  assert (sessionStore auth <> None) as Hs by (rewrite Hstore; discriminate).
  destruct (store_New env _ r "session" w) as [[s0 [e|]] w1];
    simpl; [apply end_new_failed; exact Hs|].
  destruct user as [u|]; simpl; [|apply end_nil_user; exact Hs].
  destruct (store_Save env _ r _ w1) as [[e|] w2] eqn:HS;
    simpl; [apply (end_save_failed auth r dbUser err u s0 e Hs)|].
  destruct dbUser as [c|]; simpl.
  - apply (end_success auth r (Some c) err u s0 [] Hs). reflexivity.
  - destruct (db_AddUser env u w2) as [[e|] w3]; simpl.
    + apply (end_success auth r None err u s0
               [EvAddUser u (Some e);
                EvLog LError "Error while adding user '%v' to auth from XX"
                      [AString (Username u)]] Hs).
      right. exists e. reflexivity.
    + apply (end_success auth r None err u s0 [EvAddUser u None] Hs).
      left. reflexivity.
Qed.

Lemma Login_loop_end (dbUser : option User) (err : option error)
    (rest : list (Authenticator W)) :
  forall (i : nat) (w : W),
    exists calls chosen tail,
      trace (Login_loop env auth r dbUser err i rest w) = calls ++ tail /\
      chosen_call chosen calls /\
      LoginEnd auth r dbUser err chosen tail
        (outcome (Login_loop env auth r dbUser err i rest w)).
Proof.
  induction rest as [|a rest IH]; intros i w.
  - exists [], None, (trace (Login_loop env auth r dbUser err i [] w)).
    rewrite Login_loop_nil. repeat split; constructor.
  - destruct (CanLogin (methods a) dbUser r w) as [[|] w1] eqn:HC.
    + destruct (Login_ (methods a) dbUser r w1) as [[user [e|]] w2] eqn:HL.
      * rewrite (Login_loop_fail env auth r _ _ _ _ _ _ _ _ _ _ HC HL).
        exists [EvCanLogin i (kind a) true; EvLogin i (kind a) user (Some e)],
               (Some (user, Some e)),
               [EvLog LWarn "user login failed: %s" [AString (Error e)];
                EvOnFailure r (Some e)].
        split; [reflexivity|].
        split; [exists [], i, (kind a); split; [reflexivity|constructor]|].
        constructor.
      * exists [EvCanLogin i (kind a) true; EvLogin i (kind a) user None],
               (Some (user, None)),
               (trace (Login_establish env auth r dbUser user w2)).
        split; [apply (Login_loop_commit env auth r _ _ _ _ _ _ _ _ _ HC HL)|].
        split; [exists [], i, (kind a); split; [reflexivity|constructor]|].
        replace (outcome (Login_loop env auth r dbUser err i (a :: rest) w))
          with (outcome (Login_establish env auth r dbUser user w2)).
        { apply Login_establish_end. }
        simpl. unfold_M. rewrite HC. simpl. rewrite HL. simpl.
        destruct (Login_establish env auth r dbUser user w2) as [[t w3] o].
        reflexivity.
    + destruct (IH (S i) w1) as (calls & chosen & tail & Ht & Hch & HE).
      exists (EvCanLogin i (kind a) false :: calls), chosen, tail.
      destruct (Login_loop_refuse env auth r dbUser err i a rest w w1 HC) as [-> _].
      split; [rewrite Ht; reflexivity|].
      split.
      * destruct chosen as [[u e]|]; simpl in *.
        -- destruct Hch as (refused & j & k & -> & HF).
           exists (EvCanLogin i (kind a) false :: refused), j, k.
           split; [reflexivity|constructor; [reflexivity|exact HF]].
        -- constructor; [reflexivity|exact Hch].
      * replace (outcome (Login_loop env auth r dbUser err i (a :: rest) w))
          with (outcome (Login_loop env auth r dbUser err (S i) rest w1));
          [exact HE|].
        simpl. unfold_M. rewrite HC. simpl.
        destruct (Login_loop env auth r dbUser err (S i) rest w1) as [[t w2] o].
        reflexivity.
Qed.

(** A [Login] run: the candidate lookup, the authenticator calls, the
    end. *)
Lemma Login_end (w : W) :
  exists err calls chosen tail,
    trace (Login env auth r w) =
      trace (Login_candidate env r w) ++ calls ++ tail /\
    chosen_call chosen calls /\
    LoginEnd auth r (Login_dbUser env r w) err chosen tail
      (outcome (Login env auth r w)).
Proof.
  destruct (Login_candidate_run env r w) as (pre & err & w' & HC & _).
  destruct (Login_loop_end (Login_dbUser env r w) err (authenticators auth) 0%nat w')
    as (calls & chosen & tail & Ht & Hch & HE).
  exists err, calls, chosen, tail.
  assert (Login env auth r w =
          (pre ++ trace (Login_loop env auth r (Login_dbUser env r w) err 0
                                    (authenticators auth) w'),
           final (Login_loop env auth r (Login_dbUser env r w) err 0
                             (authenticators auth) w'),
           outcome (Login_loop env auth r (Login_dbUser env r w) err 0
                               (authenticators auth) w'))) as ->.
  { unfold Login. unfold mbind, M_bind. rewrite HC.
    destruct (Login_loop env auth r (Login_dbUser env r w) err 0
                         (authenticators auth) w') as [[t w2] o].
    reflexivity. }
  rewrite HC. unfold trace at 1 3, outcome at 1. simpl.
  rewrite Ht. repeat split; assumption.
Qed.

(** The events of the candidate lookup. *)
Lemma Login_candidate_trace (w : W) :
  trace (Login_candidate env r w) =
    if String.eqb (FormValue r "username") "" then []
    else
      let res := (db_GetUser env (FormValue r "username") w).1 in
      EvGetUser (FormValue r "username") res.1 res.2 ::
      match res.2 with
      | Some e =>
        if is_ErrNoRows e then []
        else [EvLog LError "Error while loading user '%v'"
                    [AString (FormValue r "username")]]
      | None => []
      end.
Proof.
  unfold Login_candidate.
  destruct (String.eqb (FormValue r "username") ""); [reflexivity|].
  unfold_M.
  destruct (db_GetUser env (FormValue r "username") w) as [[u [e|]] w'];
    simpl; [destruct (is_ErrNoRows e)|]; reflexivity.
Qed.

End LoginShape.

Section LoginCases.
Context {W : Type} (env : Collaborators W).
Variables (auth : Authentication W) (r : Request).

(** Quiet events are invisible to the views of a trace. *)
Lemma quiet_views (pre : list Event) :
  Forall (fun e => is_quiet e = true) pre ->
  responses pre = [] /\ new_sessions pre = [] /\ saved_sessions pre = [] /\
  added_users pre = [] /\ successes pre = [] /\
  Forall (fun e => is_write e = false) pre /\
  (forall e, e ∈ pre -> is_quiet e = true).
Proof.
  induction 1 as [|e pre He _ (IH1 & IH2 & IH3 & IH4 & IH5 & IH6 & IH7)].
  - repeat split; try constructor. intros e H. inversion H.
  - destruct e; try discriminate He;
      (split; [exact IH1|]); (split; [exact IH2|]); (split; [exact IH3|]);
      (split; [exact IH4|]); (split; [exact IH5|]);
      (split; [constructor; [reflexivity|exact IH6]|]);
      intros e' H; apply elem_of_cons in H as [->|H];
      try reflexivity; exact (IH7 e' H).
Qed.

Lemma Login_candidate_quiet (w : W) :
  Forall (fun e => is_quiet e = true) (trace (Login_candidate env r w)) /\
  forall i k u e, EvLogin i k u e ∉ trace (Login_candidate env r w).
Proof.
  rewrite Login_candidate_trace.
  destruct (String.eqb (FormValue r "username") "").
  - split; [constructor|]. intros i k u e H. inversion H.
  - simpl. destruct ((db_GetUser env (FormValue r "username") w).1.2) as [e|];
      [destruct (is_ErrNoRows e)|];
      (split; [repeat constructor|]); intros i k u e' H; in_trace H.
Qed.

Lemma refusals_quiet (l : list Event) :
  Forall (fun e => is_refusal e = true) l ->
  Forall (fun e => is_quiet e = true) l /\
  forall i k u e, EvLogin i k u e ∉ l.
Proof.
  induction 1 as [|e l He _ [IH1 IH2]].
  - split; [constructor|]. intros i k u e H. inversion H.
  - destruct e; try discriminate He.
    split; [constructor; [reflexivity|exact IH1]|].
    intros i' k' u e H. apply elem_of_cons in H as [H|H]; [discriminate|].
    exact (IH2 _ _ _ _ H).
Qed.

(** Every [Login] run is a quiet part (the candidate lookup and the
    authenticator calls) followed by one of the ends. *)
Lemma Login_run_cases (w : W) :
  exists err pre chosen tail,
    trace (Login env auth r w) = pre ++ tail /\
    Forall (fun e => is_quiet e = true) pre /\
    (forall i k u e, EvLogin i k u e ∈ pre -> chosen = Some (u, e)) /\
    (forall u e, chosen = Some (u, e) -> exists i k, EvLogin i k u e ∈ pre) /\
    LoginEnd auth r (Login_dbUser env r w) err chosen tail
      (outcome (Login env auth r w)).
Proof.
  destruct (Login_end env auth r w) as (err & calls & chosen & tail & Ht & Hch & HE).
  destruct (Login_candidate_quiet w) as [Q1 N1].
  exists err, (trace (Login_candidate env r w) ++ calls), chosen, tail.
  split; [rewrite Ht, app_assoc; reflexivity|].
  destruct chosen as [[u e]|]; simpl in Hch.
  - destruct Hch as (refused & i & k & -> & HF).
    destruct (refusals_quiet _ HF) as [Q2 N2].
    split; [|split; [|split; [|exact HE]]].
    + apply Forall_app. split; [exact Q1|].
      apply Forall_app. split; [exact Q2|repeat constructor].
    + intros i' k' u' e' H.
      apply elem_of_app in H as [H|H]; [destruct (N1 _ _ _ _ H)|].
      apply elem_of_app in H as [H|H]; [destruct (N2 _ _ _ _ H)|].
      in_trace H. injection H as _ _ -> ->. reflexivity.
    + intros u' e' [= <- <-]. exists i, k.
      apply elem_of_app. right. apply elem_of_app. right.
      apply elem_of_cons. right. apply elem_of_cons. left. reflexivity.
  - destruct (refusals_quiet _ Hch) as [Q2 N2].
    split; [|split; [|split; [|exact HE]]].
    + apply Forall_app. split; assumption.
    + intros i k u e H.
      apply elem_of_app in H as [H|H];
        [destruct (N1 _ _ _ _ H)|destruct (N2 _ _ _ _ H)].
    + discriminate.
Qed.

End LoginCases.

Section LoginEnds.
Context {W : Type} (env : Collaborators W).
Variables (auth : Authentication W) (r : Request).

Lemma quiet_prefix (pre tail : list Event) :
  Forall (fun e => is_quiet e = true) pre ->
  responses (pre ++ tail) = responses tail /\
  new_sessions (pre ++ tail) = new_sessions tail /\
  saved_sessions (pre ++ tail) = saved_sessions tail /\
  added_users (pre ++ tail) = added_users tail /\
  (tail <> [] -> last (pre ++ tail) = last tail) /\
  (Forall (fun e => is_write e = false) tail ->
   Forall (fun e => is_write e = false) (pre ++ tail)) /\
  (forall e, is_quiet e = false -> e ∈ pre ++ tail -> e ∈ tail).
Proof.
  intros HQ.
  destruct (quiet_views pre HQ) as (V1 & V2 & V3 & V4 & _ & V6 & V7).
  unfold responses, new_sessions, saved_sessions, added_users in *.
  rewrite List.filter_app, !omap_app, V1, V2, V3, V4.
  repeat split.
  - intros Hne. rewrite last_app. destruct (last tail) eqn:E; [reflexivity|].
    apply last_None in E. contradiction.
  - intros HT. apply Forall_app. split; assumption.
  - intros e He H. apply elem_of_app in H as [H|H]; [|exact H].
    rewrite (V7 e H) in He. discriminate.
Qed.

(** The cases of a run, with the views of its trace reduced to those of
    its end. *)
Ltac login_cases w :=
  let err := fresh "err" in
  let pre := fresh "pre" in
  let chosen := fresh "chosen" in
  let tail := fresh "tail" in
  let Ht := fresh "Ht" in
  let HQ := fresh "HQ" in
  let Hin := fresh "Hin" in
  let Hex := fresh "Hex" in
  let HE := fresh "HE" in
  let o := fresh "o" in
  let Ho := fresh "Ho" in
  destruct (Login_run_cases env auth r w)
    as (err & pre & chosen & tail & Ht & HQ & Hin & Hex & HE);
  rewrite Ht in *;
  remember (outcome (Login env auth r w)) as o eqn:Ho;
  destruct (quiet_prefix pre tail HQ) as (P1 & P2 & P3 & P4 & P5 & P6 & P7);
  rewrite ?P1, ?P2, ?P3, ?P4;
  let adds := fresh "adds" in
  let HA := fresh "HA" in
  destruct HE as [ |? ?|? ?|? ? ? ?|? ?|? ? ? ?|? ? adds ? HA];
  [ | | | | | |
    unfold LoginAdds in HA;
    destruct (Login_dbUser env r w) as [?|] eqn:?;
    [subst adds|destruct HA as [->|[? ->]]] ];
  try (rewrite P5 by discriminate); simpl in *.

(** X13: a [Login] run that returns answers the request exactly once,
    as its last step: the success continuation with the user attached,
    the failure continuation with the incoming request, or status 500.  A
    run that panics has answered nothing, saved no session and written no
    user. *)
Theorem Login_one_response (w : W) :
  match outcome (Login env auth r w) with
  | Done _ =>
    exists e,
      responses (trace (Login env auth r w)) = [e] /\
      last (trace (Login env auth r w)) = Some e /\
      ((exists u, e = EvOnSuccess (with_user r u)) \/
       (exists err, e = EvOnFailure r err) \/
       (exists err, e = EvHttpError (Error err) StatusInternalServerError))
  | Panic _ =>
    responses (trace (Login env auth r w)) = [] /\
    saved_sessions (trace (Login env auth r w)) = [] /\
    added_users (trace (Login env auth r w)) = []
  end.
Proof.
  login_cases w; try (repeat split; reflexivity);
    eexists; (split; [reflexivity|]); (split; [reflexivity|]); eauto.
Qed.

(** X14: a [Login] run that enters the failure continuation hands it the
    incoming request, and has created no session, saved no session and
    written no user. *)
Theorem Login_failure_without_effects (w : W) (r' : Request) (err : option error) :
  EvOnFailure r' err ∈ trace (Login env auth r w) ->
  r' = r /\
  Forall (fun e => is_write e = false) (trace (Login env auth r w)) /\
  last (trace (Login env auth r w)) = Some (EvOnFailure r' err).
Proof.
  intros H. login_cases w; apply P7 in H; try reflexivity; in_trace H;
    injection H as -> ->; (split; [reflexivity|]);
    (split; [apply P6; repeat constructor|reflexivity]).
Qed.

(** X15: an error of [AddUser] is logged and otherwise ignored: the run
    still ends in the success continuation, with the user it tried to
    add; and [AddUser] is only ever called after a successful session
    save, when no candidate was resolved. *)
Theorem Login_AddUser_after_save (w : W) (u : User) (aerr : option error) :
  EvAddUser u aerr ∈ trace (Login env auth r w) ->
  last (trace (Login env auth r w)) = Some (EvOnSuccess (with_user r u)) /\
  Login_dbUser env r w = None /\
  (exists s, saved_sessions (trace (Login env auth r w)) = [s] /\
             EvSessionSave s None ∈ trace (Login env auth r w)) /\
  (forall e, aerr = Some e ->
     EvLog LError "Error while adding user '%v' to auth from XX"
           [AString (Username u)] ∈ trace (Login env auth r w)).
Proof.
  intros H. login_cases w; apply P7 in H; try reflexivity; in_trace H;
    injection H as -> ->; (split; [reflexivity|]); (split; [reflexivity|]);
    (split; [eexists; split; [reflexivity|];
             apply elem_of_app; right; apply elem_of_cons; right;
             apply elem_of_cons; left; reflexivity|]);
    intros e' He'; try discriminate He';
    apply elem_of_app; right; do 3 (apply elem_of_cons; right);
    apply elem_of_cons; left; reflexivity.
Qed.

Lemma Login_session_lookup (s0 : Session) (u : User) :
  Values (Login_session auth s0 u) !! "username" = Some (AString (Username u)) /\
  Values (Login_session auth s0 u) !! "projects" = Some (AStrings (Projects u)) /\
  Values (Login_session auth s0 u) !! "roles" = Some (AStrings (Roles u)) /\
  (forall key, key <> "username" -> key <> "projects" -> key <> "roles" ->
     Values (Login_session auth s0 u) !! key = Values s0 !! key) /\
  IsNew (Login_session auth s0 u) = IsNew s0.
Proof.
  unfold Login_session.
  destruct (Login_values_lookup
              (if SessionMaxAge auth =? 0 then s0
               else set_MaxAge s0 (SessionMaxAge_seconds (SessionMaxAge auth))) u)
    as (H1 & H2 & H3).
  split; [exact H1|]. split; [exact H2|]. split; [exact H3|].
  unfold Login_values, set_Value, set_MaxAge. simpl. split.
  - intros key K1 K2 K3. rewrite !lookup_insert_ne by congruence.
    destruct (SessionMaxAge auth =? 0); reflexivity.
  - destruct (SessionMaxAge auth =? 0); reflexivity.
Qed.

(** X16: a session [Login] saves is the one [New] returned, with the
    username, projects and roles of the user the chosen authenticator
    returned stored under the keys "username", "projects" and "roles",
    and every other key as [New] left it; [Login] saves at most once. *)
Theorem Login_saved_session (w : W) (s : Session) (serr : option error) :
  EvSessionSave s serr ∈ trace (Login env auth r w) ->
  exists u s0 i k,
    EvLogin i k (Some u) None ∈ trace (Login env auth r w) /\
    new_sessions (trace (Login env auth r w)) = [s0] /\
    saved_sessions (trace (Login env auth r w)) = [s] /\
    Values s !! "username" = Some (AString (Username u)) /\
    Values s !! "projects" = Some (AStrings (Projects u)) /\
    Values s !! "roles" = Some (AStrings (Roles u)) /\
    (forall key, key <> "username" -> key <> "projects" -> key <> "roles" ->
       Values s !! key = Values s0 !! key) /\
    IsNew s = IsNew s0.
Proof.
  intros H. login_cases w; apply P7 in H; try reflexivity; in_trace H;
    injection H as -> ->;
    match goal with
    | Hex : forall u e, Some (Some ?u0, None) = Some (u, e) -> _ |- _ =>
      destruct (Hex (Some u0) None eq_refl) as (i & k & Hi)
    end;
    match goal with
    | |- context [Login_session auth ?s0 ?u0] =>
      destruct (Login_session_lookup s0 u0) as (L1 & L2 & L3 & L4 & L5);
      exists u0, s0, i, k
    end;
    (split; [apply elem_of_app; left; exact Hi|]);
    repeat split; assumption.
Qed.

(** X17: [Login] panics exactly when the chosen authenticator returned
    no error and either the store is nil, so that the call of [New]
    panics, or the authenticator returned no user either and [New]
    created a session: the nil user is then dereferenced on line 229. *)
Theorem Login_panics_iff (w : W) :
  (exists msg, outcome (Login env auth r w) = Panic msg) <->
  (exists i k u,
     EvLogin i k u None ∈ trace (Login env auth r w) /\
     (sessionStore auth = None \/
      u = None /\ exists s0, EvSessionNew s0 None ∈ trace (Login env auth r w))).
Proof.
  split.
  - intros [msg H]. login_cases w; try discriminate H.
    + match goal with
      | Hex : forall u e, Some (?user, None) = Some (u, e) -> _ |- _ =>
        destruct (Hex user None eq_refl) as (i & k & Hi); exists i, k, user
      end.
      split; [apply elem_of_app; left; exact Hi|]. left. assumption.
    + match goal with
      | Hex : forall u e, Some (None, None) = Some (u, e) -> _ |- _ =>
        destruct (Hex None None eq_refl) as (i & k & Hi); exists i, k, None
      end.
      split; [apply elem_of_app; left; exact Hi|]. right.
      split; [reflexivity|]. eexists.
      apply elem_of_app. right. apply elem_of_cons. left. reflexivity.
  - intros (i & k & u & HL & HD).
    login_cases w; try (eexists; reflexivity); exfalso;
      (apply elem_of_app in HL as [HL|HL]; [|in_trace HL]);
      match goal with
      | Hin : forall i k u e, EvLogin i k u e ∈ _ -> _ |- _ =>
        apply Hin in HL
      end;
      try discriminate HL; injection HL as <-;
      (destruct HD as [HD|[HD [s1 HN]]];
       [contradiction
       |first [discriminate HD
              |apply P7 in HN; [in_trace HN|reflexivity]]]).
Qed.

(** X18: [Login] looks the user up exactly when the form carries a
    username, once, as its first step, and before any authenticator is
    asked. *)
Theorem Login_lookup_once (w : W) :
  lookups (trace (Login env auth r w)) =
    (if String.eqb (FormValue r "username") "" then []
     else [FormValue r "username"]) /\
  (FormValue r "username" <> "" ->
   exists t,
     trace (Login env auth r w) =
       EvGetUser (FormValue r "username")
                 (db_GetUser env (FormValue r "username") w).1.1
                 (db_GetUser env (FormValue r "username") w).1.2 :: t /\
     lookups t = []).
Proof.
  destruct (Login_end env auth r w) as (err & calls & chosen & tail & Ht & Hch & HE).
  rewrite Ht, Login_candidate_trace.
  assert (lookups calls = []) as Hc.
  { assert (forall l, Forall (fun e => is_refusal e = true) l -> lookups l = []) as HR.
    { induction 1 as [|e l He _ IH]; [reflexivity|].
      destruct e; try discriminate He. exact IH. }
    destruct chosen as [[u e]|]; simpl in Hch.
    - destruct Hch as (refused & i & k & -> & HF). unfold lookups in *.
      rewrite omap_app, (HR _ HF). reflexivity.
    - apply HR, Hch. }
  assert (lookups tail = []) as Htl.
  { remember (outcome (Login env auth r w)) as o.
    destruct HE as [ |? ?|? ?|? ? ? ?|? ?|? ? ? ?|? ? adds ? HA]; try reflexivity.
    unfold LoginAdds in HA.
    destruct (Login_dbUser env r w); [subst adds|destruct HA as [->|[? ->]]];
      reflexivity. }
  unfold lookups in *.
  destruct (String.eqb (FormValue r "username") "") eqn:E.
  - simpl. rewrite omap_app, Hc, Htl. split; [reflexivity|].
    intros Hne. apply String.eqb_eq in E. contradiction.
  - cbv zeta.
    destruct ((db_GetUser env (FormValue r "username") w).1.2) as [e|];
      [destruct (is_ErrNoRows e)|]; simpl;
      rewrite ?omap_app, ?Hc, ?Htl; simpl; (split; [reflexivity|]);
      intros _; eexists; (split; [reflexivity|]); simpl;
      rewrite ?omap_app, ?Hc, ?Htl; reflexivity.
Qed.

End LoginEnds.

Lemma Login_failure_without_effects_witness :
  Reference.request "" = Reference.request "" /\
  Forall (fun e => is_write e = false)
    (trace (Login (Reference.collaborators Examples.rejected_login)
                  (Reference.orchestrator Examples.rejected_login 0
                     [LdapAuthenticator; LocalAuthenticator])
                  (Reference.request "") Reference.empty_world)) /\
  last (trace (Login (Reference.collaborators Examples.rejected_login)
                     (Reference.orchestrator Examples.rejected_login 0
                        [LdapAuthenticator; LocalAuthenticator])
                     (Reference.request "") Reference.empty_world))
    = Some (EvOnFailure (Reference.request "")
                        (Some (errors_New "wrong password"))).
Proof.
  apply (Login_failure_without_effects
           (Reference.collaborators Examples.rejected_login)).
  apply list_elem_of_In. vm_compute. do 4 right. left. reflexivity.
Defined.

Lemma Login_AddUser_after_save_witness :
  last (trace (Login Examples.env_table_down Examples.auth
                     (Reference.request "") Reference.empty_world))
    = Some (EvOnSuccess (with_user (Reference.request "") Reference.alice)) /\
  Login_dbUser Examples.env_table_down (Reference.request "")
               Reference.empty_world = None /\
  (exists s,
     saved_sessions (trace (Login Examples.env_table_down Examples.auth
                                  (Reference.request "") Reference.empty_world))
       = [s] /\
     EvSessionSave s None ∈
       trace (Login Examples.env_table_down Examples.auth
                    (Reference.request "") Reference.empty_world)) /\
  (forall e, Some (errors_New "table down") = Some e ->
     EvLog LError "Error while adding user '%v' to auth from XX"
           [AString (Username Reference.alice)] ∈
       trace (Login Examples.env_table_down Examples.auth
                    (Reference.request "") Reference.empty_world)).
Proof.
  apply (Login_AddUser_after_save Examples.env_table_down).
  apply list_elem_of_In. vm_compute. do 5 right. left. reflexivity.
Defined.

Lemma Login_saved_session_witness :
  exists u s0 i k,
    EvLogin i k (Some u) None ∈
      trace (Login Examples.env Examples.auth (Reference.request "")
                   Reference.empty_world) /\
    new_sessions (trace (Login Examples.env Examples.auth (Reference.request "")
                               Reference.empty_world)) = [s0] /\
    saved_sessions (trace (Login Examples.env Examples.auth (Reference.request "")
                                 Reference.empty_world))
      = [Login_session Examples.auth Reference.fresh_session Reference.alice] /\
    Values (Login_session Examples.auth Reference.fresh_session Reference.alice)
      !! "username" = Some (AString (Username u)) /\
    Values (Login_session Examples.auth Reference.fresh_session Reference.alice)
      !! "projects" = Some (AStrings (Projects u)) /\
    Values (Login_session Examples.auth Reference.fresh_session Reference.alice)
      !! "roles" = Some (AStrings (Roles u)) /\
    (forall key, key <> "username" -> key <> "projects" -> key <> "roles" ->
       Values (Login_session Examples.auth Reference.fresh_session Reference.alice)
         !! key = Values s0 !! key) /\
    IsNew (Login_session Examples.auth Reference.fresh_session Reference.alice)
      = IsNew s0.
Proof.
  apply (Login_saved_session Examples.env Examples.auth (Reference.request "")
           Reference.empty_world _ None).
  apply list_elem_of_In. vm_compute. do 4 right. left. reflexivity.
Defined.

(** The local authenticator returns neither user nor error: the run
    panics after the session was created. *)
Lemma Login_panic_sample :
  Login (Reference.collaborators Examples.nil_login)
        (Reference.orchestrator Examples.nil_login 0 [LocalAuthenticator])
        (Reference.request "") Reference.empty_world =
    ([EvCanLogin 0 LocalAuthenticator true;
      EvLogin 0 LocalAuthenticator None None;
      EvSessionNew Reference.fresh_session None],
     Reference.empty_world,
     Panic "invalid memory address or nil pointer dereference").
Proof. vm_compute. reflexivity. Qed.

(** On an orchestrator without session store, [Logout] and the session
    stage of [Auth] panic at the fetch, and [Login] panics once the
    chosen authenticator has accepted. *)
Lemma nil_store_samples :
  Logout Examples.env Examples.auth_nil_store (Reference.request "")
         Reference.empty_world =
    ([], Reference.empty_world,
     Panic "invalid memory address or nil pointer dereference") /\
  Auth Examples.env Examples.auth_nil_store (Reference.request "")
       Reference.empty_world =
    ([EvAuthViaJWT None None], Reference.empty_world,
     Panic "invalid memory address or nil pointer dereference") /\
  Login Examples.env Examples.auth_nil_store (Reference.request "")
        Reference.empty_world =
    ([EvCanLogin 0 LdapAuthenticator false;
      EvCanLogin 1 LocalAuthenticator true;
      EvLogin 1 LocalAuthenticator (Some Reference.alice) None],
     Reference.empty_world,
     Panic "invalid memory address or nil pointer dereference").
Proof. repeat split; vm_compute; reflexivity. Qed.

(** ** More on [Init] *)

Section InitResult.
Context {W : Type} (env : Collaborators W).

(** The second part of [Init] keeps the database handle, the cookie
    store and the session lifetime, and sets the named authenticators. *)
Lemma Init_authenticators_fields (auth : Authentication W)
    (configs : gmap string Any) (w : W) (a : Authentication W) :
  outcome (Init_authenticators env auth configs w) = Done (Some a, None) ->
  db a = db auth /\ sessionStore a = sessionStore auth /\
  SessionMaxAge a = SessionMaxAge auth /\
  JwtAuth a = Some (new_authenticator env JWTAuthenticator) /\
  LocalAuth a = Some (new_authenticator env LocalAuthenticator) /\
  LdapAuth a = match configs !! "ldap" with
               | Some _ => Some (new_authenticator env LdapAuthenticator)
               | None => LdapAuth auth
               end.
Proof.
  unfold Init_authenticators, call_Init, new_authenticator.
  unfold_M. simpl.
  destruct (configs !! "ldap"); destruct_calls; intros H;
    try discriminate H; injection H as <-; repeat split.
Qed.

(** In the second part of [Init], a failing [Init] of an authenticator
    other than the token-in-session one is the last [Init] call, and its
    error is returned. *)
Lemma Init_authenticators_abort (auth : Authentication W)
    (configs : gmap string Any) (w : W)
    (k : AuthenticatorKind) (cfg : Any) (e : error) :
  EvInit k cfg (Some e) ∈ trace (Init_authenticators env auth configs w) ->
  k <> JWTSessionAuthenticator ->
  outcome (Init_authenticators env auth configs w) = Done (None, Some e) /\
  last (init_calls (trace (Init_authenticators env auth configs w))) = Some k /\
  last (trace (Init_authenticators env auth configs w)) =
    Some (EvLog LError
            match k with
            | JWTAuthenticator =>
              "Error while initializing authentication -> jwtAuth init failed"
            | LdapAuthenticator =>
              "Error while initializing authentication -> ldapAuth init failed"
            | _ =>
              "Error while initializing authentication -> localAuth init failed"
            end []).
Proof.
  unfold Init_authenticators, call_Init, new_authenticator, init_calls.
  unfold_M. simpl.
  destruct (configs !! "ldap"); destruct_calls; intros H Hk; in_trace H;
    try congruence; injection H as -> _ ->; repeat split.
Qed.

(** X19: when the [Init] of the token authenticator, of the configured
    directory authenticator or of the local authenticator fails, [Init]
    returns that error and no orchestrator, logs the failure as an error
    as its last step, and initialises nothing after it. *)
Theorem Init_aborts_on_mandatory_failure (d : nat) (configs : gmap string Any)
    (w : W) (k : AuthenticatorKind) (cfg : Any) (e : error) :
  EvInit k cfg (Some e) ∈ trace (Init env d configs w) ->
  k <> JWTSessionAuthenticator ->
  outcome (Init env d configs w) = Done (None, Some e) /\
  last (init_calls (trace (Init env d configs w))) = Some k /\
  exists msg, last (trace (Init env d configs w)) = Some (EvLog LError msg []).
Proof.
  destruct (Init_run env d configs w)
    as (t & Hno & Hc & _ & [(w' & e' & ->)|(auth & w' & _ & -> & ->)]).
  - simpl. intros H. destruct (Hno _ _ _ H).
  - intros H Hk. apply elem_of_app in H as [H|H]; [destruct (Hno _ _ _ H)|].
    destruct (Init_authenticators_abort auth configs w' k cfg e H Hk)
      as (H1 & H2 & H3).
    split; [exact H1|]. unfold init_calls in *. rewrite omap_app, Hc. simpl.
    split; [exact H2|]. eexists. rewrite last_app, H3. reflexivity.
Qed.

(** X20: the registry of a successful [Init] is a sublist of the fixed
    priority order directory, token-in-session, token-in-cookie, local:
    it has no duplicates and never holds the bearer-token authenticator;
    the local authenticator is always its last entry, and the directory
    authenticator is in it exactly when a block "ldap" is configured. *)
Theorem Init_registry_order (d : nat) (configs : gmap string Any) (w : W)
    (ks : list AuthenticatorKind) :
  registry_of (outcome (Init env d configs w)) = Some ks ->
  sublist ks [LdapAuthenticator; JWTSessionAuthenticator;
              JWTCookieSessionAuthenticator; LocalAuthenticator] /\
  last ks = Some LocalAuthenticator /\
  (JWTAuthenticator ∉ ks) /\
  (LdapAuthenticator ∈ ks <-> is_Some (configs !! "ldap")).
Proof.
  intros H. destruct (Init_registry env d configs w ks H) as (e1 & e2 & _ & ->).
  destruct (configs !! "ldap"), e1, e2; simpl;
    (split; [repeat first [apply sublist_nil | apply sublist_skip
                          | apply sublist_cons]|]);
    (split; [reflexivity|]);
    (split; [intros Hin; in_trace Hin|]);
    (split; [intros Hin; try (eexists; reflexivity); in_trace Hin
            |intros [x Hx]; try discriminate Hx;
             apply elem_of_cons; left; reflexivity]).
Qed.

(** The first part of [Init], decided by [session_key_source]. *)
Lemma Init_key_stage (d : nat) (configs : gmap string Any) (w : W) :
  match (session_key_source env w).2 with
  | Some e =>
    outcome (Init env d configs w) = Done (None, Some e) /\
    init_calls (trace (Init env d configs w)) = []
  | None =>
    exists t w',
      (forall k cfg e, EvInit k cfg e ∉ t) /\
      trace (Init env d configs w) =
        t ++ trace (Init_authenticators env
                      (set_sessionStore (set_db Authentication_zero d)
                         (NewCookieStore (session_key_source env w).1))
                      configs w') /\
      outcome (Init env d configs w) =
        outcome (Init_authenticators env
                   (set_sessionStore (set_db Authentication_zero d)
                      (NewCookieStore (session_key_source env w).1))
                   configs w')
  end.
Proof.
  unfold session_key_source. unfold Init. unfold mbind, M_bind.
  unfold Init_sessionStore. unfold_M.
  destruct (String.eqb (os_Getenv env "SESSION_KEY" w) "").
  - destruct (rand_Read env 32 w) as [[bytes [e|]] w']; simpl;
      [split; reflexivity|].
    destruct (Init_authenticators env _ configs w') as [[t2 w2] o] eqn:E.
    match goal with
    | |- context [EvLog LWarn ?m []] =>
      exists [EvLog LWarn m []; EvRandRead 32 None], w'
    end.
    rewrite E. split; [|split; reflexivity].
    intros k cfg e H. in_trace H.
  - destruct (base64_DecodeString env (os_Getenv env "SESSION_KEY" w))
      as [bytes [e|]]; simpl; [split; reflexivity|].
    destruct (Init_authenticators env _ configs w) as [[t2 w2] o] eqn:E.
    exists [], w. rewrite E. split; [|split; reflexivity].
    intros k cfg e H. inversion H.
Qed.

(** X21: a successful [Init] returns an orchestrator with the given
    database handle, a cookie store keyed with the decoded [SESSION_KEY],
    or with the 32 bytes read from the random source when that variable
    is empty, a zero session lifetime, and the token and local
    authenticators set.  When the key cannot be obtained, [Init] returns
    the error and initialises no authenticator. *)
Theorem Init_session_key (d : nat) (configs : gmap string Any) (w : W) :
  (forall a, outcome (Init env d configs w) = Done (Some a, None) ->
     (session_key_source env w).2 = None /\
     sessionStore a = Some (NewCookieStore (session_key_source env w).1) /\
     db a = d /\ SessionMaxAge a = 0 /\
     JwtAuth a = Some (new_authenticator env JWTAuthenticator) /\
     LocalAuth a = Some (new_authenticator env LocalAuthenticator)) /\
  (forall e, (session_key_source env w).2 = Some e ->
     outcome (Init env d configs w) = Done (None, Some e) /\
     init_calls (trace (Init env d configs w)) = []).
Proof.
  pose proof (Init_key_stage d configs w) as HK.
  destruct ((session_key_source env w).2) as [e|].
  - destruct HK as [Ho Hc]. split.
    + intros a Ha. rewrite Ho in Ha. discriminate Ha.
    + intros e' [= <-]. split; assumption.
  - destruct HK as (t & w' & _ & _ & Ho). split; [|intros e H; discriminate H].
    intros a Ha. rewrite Ho in Ha.
    destruct (Init_authenticators_fields _ _ _ _ Ha)
      as (F1 & F2 & F3 & F4 & F5 & _).
    repeat split; assumption.
Qed.

Lemma Init_authenticators_complete (auth : Authentication W)
    (configs : gmap string Any) (w : W) :
  (forall k cfg e,
     EvInit k cfg (Some e) ∈ trace (Init_authenticators env auth configs w) ->
     k = JWTSessionAuthenticator) ->
  exists a, outcome (Init_authenticators env auth configs w) = Done (Some a, None).
Proof.
  unfold Init_authenticators, call_Init, new_authenticator.
  unfold_M. simpl.
  destruct (configs !! "ldap"); destruct_calls; intros Hall;
    try (eexists; reflexivity); exfalso;
    match type of Hall with
    | context [EvInit JWTAuthenticator ?c (Some ?e)] =>
      assert (JWTAuthenticator = JWTSessionAuthenticator) as Hk
        by (apply (Hall _ c e), list_elem_of_In; simpl; auto 10)
    | context [EvInit LdapAuthenticator ?c (Some ?e)] =>
      assert (LdapAuthenticator = JWTSessionAuthenticator) as Hk
        by (apply (Hall _ c e), list_elem_of_In; simpl; auto 10)
    | context [EvInit LocalAuthenticator ?c (Some ?e)] =>
      assert (LocalAuthenticator = JWTSessionAuthenticator) as Hk
        by (apply (Hall _ c e), list_elem_of_In; simpl; auto 10)
    end; discriminate Hk.
Qed.

(** X22: [Init] succeeds whenever the key material is obtained and every
    failing [Init] call is one on the token-in-session authenticator:
    such a failure is never fatal. *)
Theorem Init_succeeds_despite_optional_failures (d : nat)
    (configs : gmap string Any) (w : W) :
  (session_key_source env w).2 = None ->
  (forall k cfg e, EvInit k cfg (Some e) ∈ trace (Init env d configs w) ->
     k = JWTSessionAuthenticator) ->
  exists a ks,
    outcome (Init env d configs w) = Done (Some a, None) /\
    registry_of (outcome (Init env d configs w)) = Some ks /\
    LocalAuthenticator ∈ ks.
Proof.
  intros HK Hall.
  assert (exists a, outcome (Init env d configs w) = Done (Some a, None))
    as [a Ha].
  { pose proof (Init_key_stage d configs w) as HS. rewrite HK in HS.
    destruct HS as (t & w' & _ & Ht & Ho).
    rewrite Ho. apply Init_authenticators_complete.
    intros k cfg e H. apply (Hall k cfg e). rewrite Ht.
    apply elem_of_app. right. exact H. }
  exists a, (map kind (authenticators a)).
  split; [exact Ha|]. rewrite Ha. split; [reflexivity|].
  assert (registry_of (outcome (Init env d configs w))
          = Some (map kind (authenticators a))) as Hr by (rewrite Ha; reflexivity).
  destruct (Init_registry env d configs w _ Hr) as (e1 & e2 & _ & ->).
  rewrite !elem_of_app. do 3 right. apply elem_of_cons. left. reflexivity.
Qed.

End InitResult.

Lemma Init_aborts_on_mandatory_failure_witness :
  outcome (Init (Reference.collaborators Examples.local_init_fails) 0%nat ∅
                Reference.empty_world)
    = Done (None, Some (errors_New "local init failed")) /\
  last (init_calls (trace (Init (Reference.collaborators Examples.local_init_fails)
                                0%nat ∅ Reference.empty_world)))
    = Some LocalAuthenticator /\
  exists msg,
    last (trace (Init (Reference.collaborators Examples.local_init_fails)
                      0%nat ∅ Reference.empty_world))
      = Some (EvLog LError msg []).
Proof.
  apply (Init_aborts_on_mandatory_failure
           (Reference.collaborators Examples.local_init_fails) 0%nat ∅
           Reference.empty_world LocalAuthenticator ANil).
  - apply list_elem_of_In. vm_compute. do 5 right. left. reflexivity.
  - discriminate.
Defined.

Lemma Init_registry_order_witness :
  sublist [LdapAuthenticator; JWTSessionAuthenticator;
           JWTCookieSessionAuthenticator; LocalAuthenticator]
          [LdapAuthenticator; JWTSessionAuthenticator;
           JWTCookieSessionAuthenticator; LocalAuthenticator] /\
  last [LdapAuthenticator; JWTSessionAuthenticator;
        JWTCookieSessionAuthenticator; LocalAuthenticator]
    = Some LocalAuthenticator /\
  (JWTAuthenticator ∉ [LdapAuthenticator; JWTSessionAuthenticator;
                       JWTCookieSessionAuthenticator; LocalAuthenticator]) /\
  (LdapAuthenticator ∈ [LdapAuthenticator; JWTSessionAuthenticator;
                        JWTCookieSessionAuthenticator; LocalAuthenticator]
   <-> is_Some (Examples.configs_ldap !! "ldap")).
Proof.
  apply (Init_registry_order Examples.env 0%nat Examples.configs_ldap
           Reference.empty_world).
  vm_compute. reflexivity.
Defined.

Lemma Init_succeeds_despite_optional_failures_witness :
  exists a ks,
    outcome (Init (Reference.collaborators Examples.session_init_fails) 0%nat ∅
                  Reference.empty_world) = Done (Some a, None) /\
    registry_of (outcome (Init (Reference.collaborators Examples.session_init_fails)
                               0%nat ∅ Reference.empty_world)) = Some ks /\
    LocalAuthenticator ∈ ks.
Proof.
  apply (Init_succeeds_despite_optional_failures
           (Reference.collaborators Examples.session_init_fails)).
  - reflexivity.
  - intros k cfg e H. apply list_elem_of_In in H. vm_compute in H.
    repeat (destruct H as [H|H]; [try discriminate H; injection H as <- _ _;
                                  reflexivity|]).
    destruct H.
Defined.
